(** * KinichKakmo: the search-result filtering and export pipeline

    A shallow embedding of [src/KinichKakmo.py]: the record model, the five
    predicates of [apply_filters], the prefix truncation done by [main], and
    the construction of the export table handed to the three formatters.

    Conventions.
    - A Python [str] is a [string]; text beyond ASCII is read as the bytes
      of its UTF-8 encoding, under which equality, emptiness, the substring
      test and splitting at an ASCII character are those of Python
      (lengths then count bytes).
    - [str.lower] is not fixed by the model: the functions that call it
      take it from the class [Str.Lowering], and what is proved of them
      holds for every lower-casing.  The examples run on
      [Str.ascii_lowering], which is [str.lower] on text whose characters
      beyond ASCII are their own lower case.
    - A result record is a Python [dict]; a key that may be missing is an
      [option] field, [None] meaning "key absent".  A present field carries a
      value of the type the upstream API documents for it.
    - Scores are numbers (integers or decimals): [Q].
    - The export table is a pandas [DataFrame]: a list of column labels and
      a list of rows of cells, a missing cell being [NaN]. *)

From Stdlib Require Import List String Ascii Bool Arith ZArith QArith Lia.
Import ListNotations.

Close Scope Q_scope.
Open Scope string_scope.
Open Scope list_scope.

(* ================================================================== *)
(** ** Strings: [str.lower] and the substring test [a in b]            *)
(* ================================================================== *)

Module Str.

Definition is_upper (c : ascii) : bool :=
  let n := nat_of_ascii c in (65 <=? n)%nat && (n <=? 90)%nat.

Definition lower_char (c : ascii) : ascii :=
  if is_upper c then ascii_of_nat (nat_of_ascii c + 32) else c.

(** Lower-casing of the letters A to Z, every other byte left alone. *)
Fixpoint ascii_lower (s : string) : string :=
  match s with
  | EmptyString => EmptyString
  | String c s' => String (lower_char c) (ascii_lower s')
  end.

(** [s.lower()].  Python lower-cases by the Unicode tables; the model
    takes the function as given, with two facts about it: the empty string
    is lower-cased to itself, and only the empty string is lower-cased to
    the empty string. *)
Class Lowering := {
  lower : string -> string;
  lower_empty : lower "" = "";
  lower_nonempty : forall s, lower s = "" -> s = ""
}.

(** The lower-casing of the examples. *)
#[global] Instance ascii_lowering : Lowering.
Proof.
  refine {| lower := ascii_lower |}.
  - reflexivity.
  - intros [|c s]; [reflexivity | discriminate].
Defined.

(** [needle in hay] on strings: [needle] occurs as a contiguous block. *)
Fixpoint contains (needle hay : string) : bool :=
  if String.prefix needle hay then true
  else match hay with
       | EmptyString => false
       | String _ hay' => contains needle hay'
       end.

End Str.

(* ================================================================== *)
(** ** Record model                                                    *)
(* ================================================================== *)

(** One element of a record's [types] list: a dict with an optional
    ['name'] key. *)
Record TypeTag := mkTag { tag_name : option string }.

(** One search hit, as returned by the reconcile API. *)
Record EntityRecord := mkRecord {
  rec_id : option string;
  rec_name : option string;
  rec_score : option Q;
  rec_description : option string;
  rec_types : option (list TypeTag)
}.

(** [d.get(key, default)] on an optional field. *)
Definition get {A : Type} (field : option A) (default : A) : A :=
  match field with
  | Some v => v
  | None => default
  end.

(** Truthiness of [r.get('types')]: absent and empty are both falsy. *)
Definition truthy_list {A : Type} (field : option (list A)) : bool :=
  match field with
  | Some (_ :: _) => true
  | _ => false
  end.

(** Truthiness of a [str] and of a [list]. *)
Definition truthy_str (s : string) : bool :=
  match s with EmptyString => false | _ => true end.

Definition truthy {A : Type} (l : list A) : bool :=
  match l with [] => false | _ => true end.

(** [any(f(x) for x in xs)] *)
Definition any {A : Type} (f : A -> bool) (xs : list A) : bool := existsb f xs.

(* ================================================================== *)
(** ** Filter functions ([apply_filters], lines 320-374)               *)
(* ================================================================== *)

(** Source filter, lines 335-337. *)
Definition source_pred {L : Str.Lowering}
    (sources : list string) (r : EntityRecord) : bool :=
  any (fun source =>
         Str.contains (Str.lower source) (Str.lower (get (rec_description r) ""))
         || Str.contains (Str.lower source) (Str.lower (get (rec_name r) "")))
      sources.

(** Entity type filter, lines 344-345:
    [r.get('types') and len(r.get('types', [])) > 0
     and r.get('types')[0].get('name', '') == entity_type]. *)
Definition type_pred (entity_type : string) (r : EntityRecord) : bool :=
  truthy_list (rec_types r)
  && (0 <? List.length (get (rec_types r) []))%nat
  && match get (rec_types r) [] with
     | t :: _ => String.eqb (get (tag_name t) "") entity_type
     | [] => false
     end.

(** Score filter, line 350. *)
Definition score_pred (min_score : Z) (r : EntityRecord) : bool :=
  Qle_bool (inject_Z min_score) (get (rec_score r) 0%Q).

(** Jurisdiction filter, lines 356-357. *)
Definition jurisdiction_pred {L : Str.Lowering}
    (jurisdiction : string) (r : EntityRecord) : bool :=
  Str.contains (Str.lower jurisdiction) (Str.lower (get (rec_description r) ""))
  || Str.contains (Str.lower jurisdiction) (Str.lower (get (rec_name r) "")).

(** [date_source_map.get(date_range, [])], lines 362-367. *)
Definition date_source_map (date_range : string) : list string :=
  if String.eqb date_range "2021-Present (Pandora)" then
    ["Pandora Papers"]
  else if String.eqb date_range "2016-2017 (Panama/Paradise/Bahamas)" then
    ["Panama Papers"; "Paradise Papers"; "Bahamas Leaks"]
  else if String.eqb date_range "2013 (Offshore Leaks)" then
    ["Offshore Leaks"]
  else [].

(** Date range filter, line 371. *)
Definition date_pred {L : Str.Lowering}
    (allowed_sources : list string) (r : EntityRecord) : bool :=
  any (fun src =>
         Str.contains (Str.lower src) (Str.lower (get (rec_description r) "")))
      allowed_sources.

(** The five stages, each one either a list comprehension over the current
    list or nothing at all. *)
Definition source_stage {L : Str.Lowering}
    (sources : list string) (xs : list EntityRecord) :=
  if truthy sources then filter (source_pred sources) xs else xs.

Definition type_stage (entity_type : string) (xs : list EntityRecord) :=
  if negb (String.eqb entity_type "All") then filter (type_pred entity_type) xs
  else xs.

Definition score_stage (min_score : Z) (xs : list EntityRecord) :=
  if (min_score >? 0)%Z then filter (score_pred min_score) xs else xs.

Definition jurisdiction_stage {L : Str.Lowering}
    (jurisdiction : string) (xs : list EntityRecord) :=
  if truthy_str jurisdiction then filter (jurisdiction_pred jurisdiction) xs
  else xs.

Definition date_stage {L : Str.Lowering}
    (date_range : string) (xs : list EntityRecord) :=
  if negb (String.eqb date_range "All Time") then
    let allowed_sources := date_source_map date_range in
    if truthy allowed_sources then filter (date_pred allowed_sources) xs
    else xs
  else xs.

Definition apply_filters {L : Str.Lowering} (results : list EntityRecord)
    (sources : list string) (entity_type : string) (min_score : Z)
    (jurisdiction : string) (date_range : string) : list EntityRecord :=
  let filtered := results in
  let filtered := source_stage sources filtered in
  let filtered := type_stage entity_type filtered in
  let filtered := score_stage min_score filtered in
  let filtered := jurisdiction_stage jurisdiction filtered in
  let filtered := date_stage date_range filtered in
  filtered.

(** *** The same function on list objects

    [apply_filters] starts from [filtered = results], an alias of the
    caller's list, and each active stage rebinds [filtered] to the list built
    by a comprehension.  A store of list objects makes the sharing explicit:
    a comprehension allocates, nothing ever writes to an existing object. *)

Definition store := list (list EntityRecord).
Definition ref := nat.

Definition deref (h : store) (p : ref) : list EntityRecord := nth p h [].

(** A list comprehension over the object at [p]: a fresh object. *)
Definition comprehension (pred : EntityRecord -> bool) (st : store * ref)
  : store * ref :=
  let (h, p) := st in (h ++ [filter pred (deref h p)], List.length h).

Definition stage_obj (active : bool) (pred : EntityRecord -> bool)
    (st : store * ref) : store * ref :=
  if active then comprehension pred st else st.

Definition apply_filters_obj {L : Str.Lowering} (h : store) (results : ref)
    (sources : list string) (entity_type : string) (min_score : Z)
    (jurisdiction : string) (date_range : string) : store * ref :=
  let filtered := (h, results) in
  let filtered := stage_obj (truthy sources) (source_pred sources) filtered in
  let filtered :=
    stage_obj (negb (String.eqb entity_type "All")) (type_pred entity_type)
              filtered in
  let filtered :=
    stage_obj (min_score >? 0)%Z (score_pred min_score) filtered in
  let filtered :=
    stage_obj (truthy_str jurisdiction) (jurisdiction_pred jurisdiction)
              filtered in
  let filtered :=
    stage_obj (negb (String.eqb date_range "All Time")
               && truthy (date_source_map date_range))
              (date_pred (date_source_map date_range)) filtered in
  filtered.

(* ================================================================== *)
(** ** Result limiter ([filtered_results[:max_results]], line 801)     *)
(* ================================================================== *)

(** The slice [xs[:stop]] of Python: a negative [stop] counts from the
    end of the list. *)
Definition slice_to {A : Type} (xs : list A) (stop : Z) : list A :=
  if (stop <? 0)%Z then
    firstn (Z.to_nat (Z.of_nat (List.length xs) + stop)) xs
  else firstn (Z.to_nat stop) xs.

Definition limit (filtered_results : list EntityRecord) (max_results : Z)
  : list EntityRecord :=
  slice_to filtered_results max_results.

(* ================================================================== *)
(** ** Display path (the result card, lines 847-851)                   *)
(* ================================================================== *)

Record Card := mkCard {
  entity_name : string;
  entity_id : string;
  match_score : Q;
  description : string;
  entity_type : string
}.

(** Line 851:
    [r.get('types', [{}])[0].get('name', 'Entity') if r.get('types')
     else 'Entity']. *)
Definition effective_type (r : EntityRecord) : string :=
  if truthy_list (rec_types r) then
    match get (rec_types r) [mkTag None] with
    | t :: _ => get (tag_name t) "Entity"
    | [] => "Entity"
    end
  else "Entity".

Definition card (r : EntityRecord) : Card :=
  {| entity_name := get (rec_name r) "Unknown Entity";
     entity_id := get (rec_id r) "";
     match_score := get (rec_score r) 0%Q;
     description := get (rec_description r) "";
     entity_type := effective_type r |}.

(* ================================================================== *)
(** ** Export table (lines 890-903) and its three consumers            *)
(* ================================================================== *)

Inductive py_error := KeyError | TypeError | AttributeError.

Inductive result (A : Type) : Type :=
| Ok (a : A)
| Raise (e : py_error).
Arguments Ok {A} a.
Arguments Raise {A} e.

Definition bind {A B : Type} (m : result A) (k : A -> result B) : result B :=
  match m with
  | Ok a => k a
  | Raise e => Raise e
  end.

Notation "x <- m ;; k" := (bind m (fun x => k))
  (at level 61, m at next level, right associativity).

Fixpoint mapM {A B : Type} (f : A -> result B) (xs : list A)
  : result (list B) :=
  match xs with
  | [] => Ok []
  | x :: xs' => y <- f x ;; ys <- mapM f xs' ;; Ok (y :: ys)
  end.

(** A cell of a [DataFrame] built from the records: a string, a number,
    a list of type tags, or the missing-value marker. *)
Inductive cell :=
| NaN
| Str (s : string)
| Num (q : Q)
| Tags (l : list TypeTag).

Record DataFrame := mkDF {
  columns : list string;
  values : list (list cell)
}.

(** The keys of a record that the pipeline reads. *)
Inductive key := K_id | K_name | K_score | K_description | K_types.

Definition all_keys : list key :=
  [K_id; K_name; K_score; K_description; K_types].

Definition key_label (k : key) : string :=
  match k with
  | K_id => "id"
  | K_name => "name"
  | K_score => "score"
  | K_description => "description"
  | K_types => "types"
  end.

Definition lookup (r : EntityRecord) (k : key) : option cell :=
  match k with
  | K_id => option_map Str (rec_id r)
  | K_name => option_map Str (rec_name r)
  | K_score => option_map Num (rec_score r)
  | K_description => option_map Str (rec_description r)
  | K_types => option_map Tags (rec_types r)
  end.

Definition has_key (k : key) (r : EntityRecord) : bool :=
  match lookup r k with Some _ => true | None => false end.

(** The cell of record [r] in column [k]. *)
Definition cell_of (r : EntityRecord) (k : key) : cell := get (lookup r k) NaN.

(** [pd.DataFrame(records)]: one column per key that some record carries,
    one row per record, [NaN] where a record lacks the key.  (Columns are
    only ever picked by label, so their order is immaterial.) *)
Definition DataFrame_of (records : list EntityRecord) : DataFrame :=
  let keys := filter (fun k => existsb (has_key k) records) all_keys in
  {| columns := map key_label keys;
     values := map (fun r => map (cell_of r) keys) records |}.

Fixpoint index_of (label : string) (cols : list string) : option nat :=
  match cols with
  | [] => None
  | c :: cols' =>
      if String.eqb c label then Some 0%nat
      else option_map S (index_of label cols')
  end.

(** [label in df.columns] *)
Definition has_column (df : DataFrame) (label : string) : bool :=
  match index_of label (columns df) with Some _ => true | None => false end.

(** [df[label]] *)
Definition column (df : DataFrame) (label : string) : result (list cell) :=
  match index_of label (columns df) with
  | Some i => Ok (map (fun row => nth i row NaN) (values df))
  | None => Raise KeyError
  end.

(** [df[[l1, ..., ln]]] *)
Definition select (df : DataFrame) (labels : list string) : result DataFrame :=
  idxs <- mapM (fun l => match index_of l (columns df) with
                         | Some i => Ok i
                         | None => Raise KeyError
                         end) labels ;;
  Ok {| columns := labels;
        values := map (fun row => map (fun i => nth i row NaN) idxs)
                      (values df) |}.

Fixpoint replace_nth {A : Type} (i : nat) (x : A) (l : list A) : list A :=
  match l, i with
  | [], _ => []
  | _ :: l', O => x :: l'
  | y :: l', S i' => y :: replace_nth i' x l'
  end.

(** [df[label] = col]: overwrite the column, or append a new one. *)
Definition set_column (df : DataFrame) (label : string) (col : list cell)
  : DataFrame :=
  match index_of label (columns df) with
  | Some i =>
      {| columns := columns df;
         values := map (fun rc => replace_nth i (snd rc) (fst rc))
                       (combine (values df) col) |}
  | None =>
      {| columns := columns df ++ [label];
         values := map (fun rc => fst rc ++ [snd rc])
                       (combine (values df) col) |}
  end.

(** [df[label] = scalar] *)
Definition set_scalar (df : DataFrame) (label : string) (c : cell) : DataFrame :=
  set_column df label (map (fun _ => c) (values df)).

(** [df.columns = labels] *)
Definition rename_columns (df : DataFrame) (labels : list string) : DataFrame :=
  {| columns := labels; values := values df |}.

(** What the run time supplies: the clock reading, already formatted, and
    the text Python prints for a number or a list. *)
Record Env := mkEnv {
  now : string;
  py_str : cell -> string
}.

(** [f"{x}"] *)
Definition format (env : Env) (x : cell) : string :=
  match x with
  | Str s => s
  | NaN => "nan"
  | _ => py_str env x
  end.

Definition ICIJ_NODE_URL : string := "https://offshoreleaks.icij.org/nodes/".

(** Line 895:
    [lambda x: x[0].get('name', 'Entity') if x and len(x) > 0 else 'Entity'].
    A missing cell is the float [nan], which is truthy and has no [len]. *)
Definition type_of_cell (x : cell) : result cell :=
  match x with
  | Tags [] => Ok (Str "Entity")
  | Tags (t :: _) => Ok (Str (get (tag_name t) "Entity"))
  | NaN => Raise TypeError
  | Str EmptyString => Ok (Str "Entity")
  | Str _ => Raise AttributeError
  | Num q => if Qeq_bool q 0%Q then Ok (Str "Entity") else Raise TypeError
  end.

(** Lines 890-903. *)
Definition prepare_export (env : Env) (query : string)
    (filtered_results : list EntityRecord) : result DataFrame :=
  let df := DataFrame_of filtered_results in
  df_export <- select df ["name"; "score"; "id"] ;;
  df_export <-
    (if has_column df "types" then
       types <- column df "types" ;;
       type <- mapM type_of_cell types ;;
       Ok (set_column df_export "type" type)
     else Ok df_export) ;;
  let df_export :=
    rename_columns df_export
      (["Entity Name"; "Match Score"; "ICIJ ID"]
       ++ (if has_column df "types" then ["Type"] else [])) in
  let df_export := set_scalar df_export "Search Query" (Str query) in
  let df_export := set_scalar df_export "Search Date" (Str (now env)) in
  ids <- column df_export "ICIJ ID" ;;
  Ok (set_column df_export "ICIJ Link"
        (map (fun x => Str (ICIJ_NODE_URL ++ format env x)) ids)).

(** [reportlab.lib.units.inch]: 72 points. *)
Definition inch : Q := 72%Q.

(** The table of [create_pdf_export], lines 258-264: its data and its
    [colWidths]. *)
Definition pdf_table (df_export : DataFrame) : list (list cell) * list Q :=
  let table_data := map Str (columns df_export) :: values df_export in
  let n := List.length (columns df_export) in
  let col_widths := [2 * inch; 0.8 * inch; 1.5 * inch]%Q in
  let col_widths :=
    if (3 <? n)%nat then col_widths ++ repeat (1.2 * inch)%Q (n - 3)
    else col_widths in
  (table_data, firstn n col_widths).

(** The tables that [main] hands to the three formatters, lines 912, 919
    and 929. *)
Record Exports := mkExports {
  csv_input : DataFrame;
  excel_input : DataFrame;
  pdf_input : DataFrame
}.

Definition export_inputs (env : Env) (query : string)
    (filtered_results : list EntityRecord) : result Exports :=
  df_export <- prepare_export env query filtered_results ;;
  pdf_df <- select df_export ["Entity Name"; "Match Score"; "ICIJ ID"] ;;
  Ok {| csv_input := df_export; excel_input := df_export; pdf_input := pdf_df |}.

(** Order-preserving selection: [l1] is obtained from [l2] by deleting
    elements. *)
Inductive subseq {A : Type} : list A -> list A -> Prop :=
| subseq_nil : subseq [] []
| subseq_keep x l1 l2 : subseq l1 l2 -> subseq (x :: l1) (x :: l2)
| subseq_drop x l1 l2 : subseq l1 l2 -> subseq l1 (x :: l2).

(** The conjunction of the five predicates, each one skipped when its
    criterion is at the "no constraint" value. *)
Definition keeps {L : Str.Lowering}
    (sources : list string) (entity_type : string)
    (min_score : Z) (jurisdiction : string) (date_range : string)
    (r : EntityRecord) : bool :=
  (if truthy sources then source_pred sources r else true)
  && ((if negb (String.eqb entity_type "All") then type_pred entity_type r
       else true)
  && ((if (min_score >? 0)%Z then score_pred min_score r else true)
  && ((if truthy_str jurisdiction then jurisdiction_pred jurisdiction r
       else true)
  && (if negb (String.eqb date_range "All Time")
         && truthy (date_source_map date_range)
      then date_pred (date_source_map date_range) r else true)))).

(** [h'] is the store [h] with fresh objects appended. *)
Definition extends (h h' : store) : Prop := exists fresh, h' = h ++ fresh.

(** [label] occurs in [text] as a substring, both lower-cased. *)
Definition occurs_ci {L : Str.Lowering} (label text : string) : Prop :=
  exists pre post, Str.lower text = (pre ++ Str.lower label ++ post)%string.

(** The export table in closed form: its labels and, per record, its row.
    [with_type] tells whether the Type column is there. *)
Definition export_columns (with_type : bool) : list string :=
  ["Entity Name"; "Match Score"; "ICIJ ID"]
  ++ (if with_type then ["Type"] else [])
  ++ ["Search Query"; "Search Date"; "ICIJ Link"].

Definition export_row (env : Env) (query : string) (with_type : bool)
    (r : EntityRecord) : list cell :=
  [cell_of r K_name; cell_of r K_score; cell_of r K_id]
  ++ (if with_type then [Str (effective_type r)] else [])
  ++ [Str query; Str (now env);
      Str (ICIJ_NODE_URL ++ format env (cell_of r K_id))].

Definition export_table (env : Env) (query : string) (with_type : bool)
    (records : list EntityRecord) : DataFrame :=
  {| columns := export_columns with_type;
     values := map (export_row env query with_type) records |}.

(** A record that carries the four keys the export reads. *)
Definition complete (r : EntityRecord) : bool :=
  has_key K_name r && has_key K_score r && has_key K_id r && has_key K_types r.

(** The records of the scenarios. *)
Definition Alpha : EntityRecord :=
  {| rec_id := None; rec_name := Some "Alpha"; rec_score := Some 90%Q;
     rec_description := Some "Panama Papers entity"; rec_types := None |}.

Definition Beta : EntityRecord :=
  {| rec_id := None; rec_name := Some "Beta"; rec_score := Some 40%Q;
     rec_description := Some "Unrelated"; rec_types := None |}.

(** A record with every key, one without a name and with an empty [types]
    list, and one that only has an id, a score and a description. *)
Definition Acme : EntityRecord :=
  {| rec_id := Some "10000001"; rec_name := Some "Acme Holdings Ltd";
     rec_score := Some 90%Q;
     rec_description := Some "Panama Papers entity";
     rec_types := Some [mkTag (Some "Officer")] |}.

Definition Nameless : EntityRecord :=
  {| rec_id := Some "10000002"; rec_name := None; rec_score := Some 40%Q;
     rec_description := Some "Registered in Panama";
     rec_types := Some [] |}.

Definition Bare : EntityRecord :=
  {| rec_id := Some "10000003"; rec_name := None; rec_score := Some 70%Q;
     rec_description := Some "Offshore Leaks record"; rec_types := None |}.

(** The word irmak with a dotless i (U+0131, the bytes 196 and 177 in
    UTF-8), and a record whose description holds it. *)
Definition irmak : string :=
  String "196"%char (String "177"%char "rmak").

Definition Nehir : EntityRecord :=
  {| rec_id := Some "10000004"; rec_name := Some "Nehir Ltd";
     rec_score := Some 60%Q;
     rec_description := Some (irmak ++ " holding")%string;
     rec_types := None |}.

Definition sample_env : Env :=
  {| now := "2025-01-01 12:00:00"; py_str := fun _ => "" |}.

(* ================================================================== *)
(** ** Around the pipeline: history encoding, search call, result
       cards, comparison list, spreadsheet layout, file names          *)
(* ================================================================== *)

Module PyStr.

(** [sep.join(parts)] *)
Fixpoint join (sep : string) (parts : list string) : string :=
  match parts with
  | [] => ""
  | p :: rest =>
      match rest with
      | [] => p
      | _ :: _ => (p ++ sep ++ join sep rest)%string
      end
  end.

(** [s.split(sep)] for a separator of one character: one more part than
    there are separators, the empty string giving one empty part. *)
Fixpoint split (sep : ascii) (s : string) : list string :=
  match s with
  | EmptyString => [""]
  | String c s' =>
      if Ascii.eqb c sep then "" :: split sep s'
      else match split sep s' with
           | part :: parts => String c part :: parts
           | [] => [String c ""]
           end
  end.

(** [s.replace(old, new)] for [old] and [new] of one character each. *)
Fixpoint replace (old new : ascii) (s : string) : string :=
  match s with
  | EmptyString => EmptyString
  | String c s' =>
      String (if Ascii.eqb c old then new else c) (replace old new s')
  end.

(** [c] occurs in [s]. *)
Fixpoint has_char (c : ascii) (s : string) : bool :=
  match s with
  | EmptyString => false
  | String d s' => Ascii.eqb d c || has_char c s'
  end.

End PyStr.

(** *** History rows ([save_search_history], lines 105-118, and their
        readers in [main], lines 985, 1012-1015 and 1151-1152) *)

(** Lines 110 and 142: [','.join(sources) if sources else '']. *)
Definition sources_str (sources : list string) : string :=
  if truthy sources then PyStr.join "," sources else "".

(** Lines 985, 1151 and 1191: [x.split(',') if x else []]. *)
Definition sources_list (sources_str : string) : list string :=
  if truthy_str sources_str then PyStr.split "," sources_str else [].

(** [sources_list and sources_list != ['']] *)
Definition named_sources (sources_list : list string) : bool :=
  truthy sources_list
  && negb match sources_list with
          | [EmptyString] => true
          | _ => false
          end.

(** Lines 1152 and 1192. *)
Definition sources_display (sources_list : list string) : string :=
  if named_sources sources_list then PyStr.join ", " sources_list
  else "All sources".

(** A row of [search_history] as [get_search_history] returns it:
    query, sources, results_count, search_date. *)
Record HistoryRow := mkRow {
  row_query : string;
  row_sources : string;
  row_count : nat;
  row_date : string
}.

(** The values [save_search_history] inserts (the date is the database's). *)
Definition history_values (query : string) (sources : list string)
    (results_count : nat) : string * string * nat :=
  (query, sources_str sources, results_count).

(** Lines 1012-1015: the labels behind the "Source Distribution" chart. *)
Definition all_sources (history : list HistoryRow) : list string :=
  fold_left
    (fun all_sources row =>
       let sources_list := sources_list (row_sources row) in
       if named_sources sources_list then all_sources ++ sources_list
       else all_sources)
    history [].

(** *** The search call ([search_icij_database], lines 287-313) *)

(** A JSON value. *)
#[warnings="-register-all"] Inductive Json :=
| JNull
| JBool (b : bool)
| JNum (q : Q)
| JStr (s : string)
| JList (items : list Json)
| JDict (members : list (string * Json)).

(** A JSON value that is not an object. *)
Inductive NonDict :=
| NNull
| NBool (b : bool)
| NNum (q : Q)
| NStr (s : string)
| NList (items : list Json).

(** The value under ["q0"]: an object, with or without ["result"] (a list
    of entity objects, as the API documents it), or anything else. *)
Inductive Q0 :=
| mkQ0 (q0_result : option (list EntityRecord))
| Q0Other (value : NonDict).

(** The body of the response as [response.json()] returns it: an object,
    with or without ["q0"], or anything else. *)
Inductive ReconcileData :=
| mkData (data_q0 : option Q0)
| DataOther (value : NonDict).

(** How the HTTP request ends. *)
Inductive HttpOutcome :=
| TimedOut
| RequestFailed
| OtherFailure (message : string)
| Responded (data : ReconcileData).

(** What [st.error] is called with: a text, or "An unexpected error
    occurred: " followed by the text of a [TypeError]. *)
Inductive ErrorShown :=
| ErrorText (text : string)
| UnexpectedTypeError.

Definition is_str (key : string) (item : Json) : bool :=
  match item with
  | JStr s => String.eqb s key
  | _ => false
  end.

(** [key in v and v[key]] for a [v] that is not an object.  The
    membership test raises [TypeError] on null, a number and a Boolean; on
    a string it is the substring test and on a list the element test, and
    where it holds the subscript [v[key]] raises [TypeError].  The value
    is whether the expression raises; where it does not, it is [False]. *)
Definition lookup_raises (key : string) (v : NonDict) : bool :=
  match v with
  | NNull | NBool _ | NNum _ => true
  | NStr s => Str.contains key s
  | NList items => existsb (is_str key) items
  end.

(** The value returned and what is passed to [st.error]. *)
Definition search_icij_database (outcome : HttpOutcome)
  : option (list EntityRecord) * list ErrorShown :=
  match outcome with
  | Responded data =>
      match data with
      | mkData (Some (mkQ0 (Some result))) =>
          if truthy result then (Some result, []) else (None, [])
      | mkData (Some (mkQ0 None)) => (None, [])
      | mkData (Some (Q0Other v)) =>
          if lookup_raises "result" v then (None, [UnexpectedTypeError])
          else (None, [])
      | mkData None => (None, [])
      | DataOther v =>
          if lookup_raises "q0" v then (None, [UnexpectedTypeError])
          else (None, [])
      end
  | TimedOut => (None, [ErrorText "Search timed out. Please try again."])
  | RequestFailed =>
      (None, [ErrorText "Error connecting to ICIJ database. Please check your internet connection."])
  | OtherFailure message =>
      (None, [ErrorText ("An unexpected error occurred: " ++ message)])
  end.

(** Truthiness of the value returned: [if results:]. *)
Definition truthy_results (results : option (list EntityRecord)) : bool :=
  match results with
  | Some (_ :: _) => true
  | _ => false
  end.

(** *** Result cards (lines 846-879) *)

(** Line 853. *)
Definition match_quality (match_score : Q) : string :=
  if Qle_bool 80 match_score then "HIGH"
  else if Qle_bool 50 match_score then "MEDIUM"
  else "LOW".

Definition dquote : string := String "034"%char EmptyString.

(** [f'<span class="source-badge">{source}</span>'] *)
Definition source_badge (source : string) : string :=
  ("<span class=" ++ dquote ++ "source-badge" ++ dquote ++ ">"
   ++ source ++ "</span>")%string.

(** Lines 855-859. *)
Definition source_tags {L : Str.Lowering} (sources : list string)
    (description entity_name : string) : string :=
  if truthy sources then
    fold_left
      (fun source_tags source =>
         if Str.contains (Str.lower source) (Str.lower description)
            || Str.contains (Str.lower source) (Str.lower entity_name)
         then (source_tags ++ source_badge source)%string
         else source_tags)
      sources ""
  else "".

(** What one pass of the display loop puts on the page. *)
Record ResultCard := mkResultCard {
  rc_idx : nat;
  rc_fields : Card;
  rc_quality : string;
  rc_tags : string;
  rc_link : string
}.

Definition result_card {L : Str.Lowering}
    (sources : list string) (idx : nat) (r : EntityRecord)
  : ResultCard :=
  let c := card r in
  {| rc_idx := idx;
     rc_fields := c;
     rc_quality := match_quality (match_score c);
     rc_tags := source_tags sources (description c) (entity_name c);
     rc_link := (ICIJ_NODE_URL ++ entity_id c)%string |}.

(** [enumerate(xs, start)] *)
Definition enumerate {A : Type} (xs : list A) (start : nat) : list (nat * A) :=
  combine (seq start (List.length xs)) xs.

(** *** The search tab (lines 786-957) *)

Record SearchForm := mkForm {
  form_query : string;
  form_sources : list string;
  form_entity_type : string;
  form_min_score : Z;
  form_max_results : Z;
  form_jurisdiction : string;
  form_date_range : string
}.

Inductive SearchView :=
| Welcome
| NothingFound (query : string)
| NothingMatches
| ResultList (cards : list ResultCard) (exports : result Exports).

(** One run of the search tab: the page shown, what the search call
    passed to [st.error], and the rows handed to [save_search_history]. *)
Definition search_tab {L : Str.Lowering}
    (env : Env) (form : SearchForm) (outcome : HttpOutcome)
  : SearchView * list ErrorShown * list (string * string * nat) :=
  if truthy_str (form_query form) then
    let (results, errors) := search_icij_database outcome in
    if truthy_results results then
      let filtered_results :=
        apply_filters (get results []) (form_sources form)
          (form_entity_type form) (form_min_score form)
          (form_jurisdiction form) (form_date_range form) in
      let filtered_results := limit filtered_results (form_max_results form) in
      let saved :=
        [history_values (form_query form) (form_sources form)
           (List.length filtered_results)] in
      if truthy filtered_results then
        (ResultList
           (map (fun ir => result_card (form_sources form) (fst ir) (snd ir))
                (enumerate filtered_results 1))
           (export_inputs env (form_query form) filtered_results),
         errors, saved)
      else (NothingMatches, errors, saved)
    else (NothingFound (form_query form), errors, [])
  else (Welcome, [], []).

(** The cards a page shows. *)
Definition cards_of (view : SearchView) : list ResultCard :=
  match view with
  | ResultList cards _ => cards
  | _ => []
  end.

(** *** The comparison list (lines 883-884, 1080-1126) *)

Definition option_eqb {A : Type} (eqb : A -> A -> bool) (x y : option A)
  : bool :=
  match x, y with
  | Some a, Some b => eqb a b
  | None, None => true
  | _, _ => false
  end.

Fixpoint list_eqb {A : Type} (eqb : A -> A -> bool) (l1 l2 : list A) : bool :=
  match l1, l2 with
  | [], [] => true
  | x :: l1', y :: l2' => eqb x y && list_eqb eqb l1' l2'
  | _, _ => false
  end.

(** [==] on type tags and on records: the same keys with equal values,
    numbers compared by value. *)
Definition tag_eqb (t u : TypeTag) : bool :=
  option_eqb String.eqb (tag_name t) (tag_name u).

Definition record_eqb (r s : EntityRecord) : bool :=
  option_eqb String.eqb (rec_id r) (rec_id s)
  && option_eqb String.eqb (rec_name r) (rec_name s)
  && option_eqb Qeq_bool (rec_score r) (rec_score s)
  && option_eqb String.eqb (rec_description r) (rec_description s)
  && option_eqb (list_eqb tag_eqb) (rec_types r) (rec_types s).

(** [r in comparison_list] *)
Definition in_list (r : EntityRecord) (l : list EntityRecord) : bool :=
  existsb (fun e => record_eqb e r) l.

(** The "Add" button, lines 883-884. *)
Definition add_to_comparison (r : EntityRecord)
    (comparison_list : list EntityRecord) : list EntityRecord :=
  if negb (in_list r comparison_list) then comparison_list ++ [r]
  else comparison_list.

(** [l.pop(i)] for [i >= 0]: [None] stands for [IndexError]. *)
Fixpoint pop {A : Type} (l : list A) (i : nat) : option (list A) :=
  match l, i with
  | [], _ => None
  | _ :: l', O => Some l'
  | x :: l', S i' => option_map (cons x) (pop l' i')
  end.

(** The "Remove" button of entry [idx], line 1125. *)
Definition remove_from_comparison (idx : nat)
    (comparison_list : list EntityRecord) : option (list EntityRecord) :=
  pop comparison_list (idx - 1).

(** No two entries of the list are equal records. *)
Fixpoint distinct (l : list EntityRecord) : bool :=
  match l with
  | [] => true
  | r :: l' => negb (in_list r l') && distinct l'
  end.

(** One row of the comparison table, lines 1086-1093. *)
Record ComparisonRow := mkComparisonRow {
  cmp_Name : string;
  cmp_Type : string;
  cmp_Match_Score : Q;
  cmp_ID : string;
  cmp_Description : string
}.

Definition comparison_row (entity : EntityRecord) : ComparisonRow :=
  {| cmp_Name := get (rec_name entity) "Unknown";
     cmp_Type :=
       if truthy_list (rec_types entity) then
         match get (rec_types entity) [mkTag None] with
         | t :: _ => get (tag_name t) "Entity"
         | [] => "Entity"
         end
       else "Entity";
     cmp_Match_Score := get (rec_score entity) 0%Q;
     cmp_ID := get (rec_id entity) "";
     cmp_Description := get (rec_description entity) "N/A" |}.

(** *** The spreadsheet ([create_excel_export], lines 187-229) *)

(** A worksheet as the writes made to it, the latest first: row, column
    (both counted from 1) and value. *)
Definition worksheet := list (nat * nat * cell).

(** [ws.cell(row=row, column=column, value=value)] *)
Definition ws_write (ws : worksheet) (row column : nat) (value : cell)
  : worksheet :=
  (row, column, value) :: ws.

(** The value of a cell, [None] for a cell never written. *)
Fixpoint ws_value (ws : worksheet) (row column : nat) : option cell :=
  match ws with
  | [] => None
  | (r, c, v) :: ws' =>
      if (r =? row)%nat && (c =? column)%nat then Some v
      else ws_value ws' row column
  end.

(** Lines 211-213, the inner loop: one row of the frame. *)
Definition write_row (row_num : nat) (row_data : list cell) (ws : worksheet)
  : worksheet :=
  fold_left (fun ws cv => ws_write ws row_num (fst cv) (snd cv))
            (enumerate row_data 1) ws.

(** Lines 197-213. *)
Definition excel_sheet (env : Env) (df_export : DataFrame) (query : string)
    (sources : list string) : worksheet :=
  let ws := [] in
  let ws := ws_write ws 1 1 (Str "ICIJ Offshore Leaks Search Results") in
  let ws := ws_write ws 2 1 (Str ("Query: " ++ query)) in
  let ws :=
    ws_write ws 3 1
      (Str ("Sources: "
            ++ (if truthy sources then PyStr.join ", " sources else "All"))) in
  let ws := ws_write ws 4 1 (Str ("Date: " ++ now env)) in
  let start_row := 6%nat in
  let ws :=
    fold_left (fun ws ct => ws_write ws start_row (fst ct) (Str (snd ct)))
              (enumerate (columns df_export) 1) ws in
  let ws :=
    fold_left (fun ws rr => write_row (fst rr) (snd rr) ws)
              (enumerate (values df_export) (start_row + 1)) ws in
  ws.

(** [str(cell.value)], an empty cell holding [None]. *)
Definition cell_text (env : Env) (value : option cell) : string :=
  match value with
  | None => "None"
  | Some x => format env x
  end.

(** Lines 216-224: the width of one column from the cells it holds. *)
Definition adjusted_width (env : Env) (column : list (option cell)) : nat :=
  let max_length :=
    fold_left
      (fun max_length cell =>
         if (max_length <? String.length (cell_text env cell))%nat
         then String.length (cell_text env cell)
         else max_length)
      column 0%nat in
  Nat.min (max_length + 2) 50.

(** *** Download names (lines 913, 923, 933) *)

(** [f"icij_search_{query.replace(' ', '_')}_{today}.{ext}"], [today]
    being the date as [%Y%m%d]. *)
Definition export_file_name (query today ext : string) : string :=
  ("icij_search_" ++ PyStr.replace " " "_" query ++ "_" ++ today ++ "."
   ++ ext)%string.

(* ================================================================== *)
(** * Properties                                                       *)
(* ================================================================== *)

(** Split a conjunction into its conjuncts, leaving equivalences whole. *)
Ltac conjuncts := repeat match goal with |- _ /\ _ => split end.

(** ** Strings *)

Module StrFacts.
Import Str.

Lemma prefix_iff (n h : string) :
  String.prefix n h = true <-> exists post, h = (n ++ post)%string.
Proof.
  revert h; induction n as [|a n IH]; intros h.
  - split; [intros _; exists h; reflexivity | destruct h; reflexivity].
  - destruct h as [|b h]; simpl.
    + split; [discriminate | intros [post H]; discriminate].
    + destruct (ascii_dec a b) as [->|Hne].
      * rewrite IH. split; intros [post H]; exists post.
        -- now rewrite H.
        -- now inversion H.
      * split; [discriminate|].
        intros [post H]. simpl in H. congruence.
Qed.

Lemma contains_unfold (n h : string) :
  contains n h =
  if String.prefix n h then true
  else match h with
       | EmptyString => false
       | String _ h' => contains n h'
       end.
Proof. destruct h; reflexivity. Qed.

(** [contains] is the substring relation. *)
Lemma contains_iff (n h : string) :
  contains n h = true <-> exists pre post, h = (pre ++ n ++ post)%string.
Proof.
  split.
  - induction h as [|a h IH]; rewrite contains_unfold;
      destruct (String.prefix n _) eqn:P.
    + intros _. apply prefix_iff in P as [post ->]. now exists "", post.
    + discriminate.
    + intros _. apply prefix_iff in P as [post ->]. now exists "", post.
    + intros H. destruct (IH H) as (pre & post & ->).
      now exists (String a pre), post.
  - intros (pre & post & ->).
    induction pre as [|a pre IH]; rewrite contains_unfold.
    + replace (String.prefix n ("" ++ n ++ post)%string) with true; [reflexivity|].
      symmetry. apply prefix_iff. now exists post.
    + destruct (String.prefix n _); [reflexivity|]. exact IH.
Qed.

Lemma lower_char_idem (c : ascii) : lower_char (lower_char c) = lower_char c.
Proof.
  destruct c as [[] [] [] [] [] [] [] []]; vm_compute; reflexivity.
Qed.

(** Lower-casing twice is lower-casing once, for the letters A to Z. *)
Lemma ascii_lower_idem (s : string) :
  ascii_lower (ascii_lower s) = ascii_lower s.
Proof.
  induction s as [|c s IH]; simpl; [reflexivity|].
  now rewrite lower_char_idem, IH.
Qed.

End StrFacts.

(** ** Lists *)

Lemma subseq_refl {A : Type} (l : list A) : subseq l l.
Proof. induction l; constructor; assumption. Qed.

Lemma subseq_trans {A : Type} (l1 l2 l3 : list A) :
  subseq l1 l2 -> subseq l2 l3 -> subseq l1 l3.
Proof.
  intros H12 H23. revert l1 H12.
  induction H23 as [|x l2 l3 _ IH|x l2 l3 _ IH]; intros l1 H12.
  - exact H12.
  - inversion H12; subst.
    + constructor. now apply IH.
    + apply subseq_drop. now apply IH.
  - apply subseq_drop. now apply IH.
Qed.

Lemma subseq_filter {A : Type} (p : A -> bool) (l : list A) :
  subseq (filter p l) l.
Proof.
  induction l as [|x l IH]; simpl; [constructor|].
  destruct (p x); constructor; assumption.
Qed.

Lemma subseq_length {A : Type} (l1 l2 : list A) :
  subseq l1 l2 -> (List.length l1 <= List.length l2)%nat.
Proof. induction 1; simpl; lia. Qed.

Lemma subseq_In {A : Type} (l1 l2 : list A) (x : A) :
  subseq l1 l2 -> In x l1 -> In x l2.
Proof.
  induction 1 as [|y l1 l2 _ IH|y l1 l2 _ IH]; simpl; intros Hin.
  - exact Hin.
  - destruct Hin; [now left | right; now apply IH].
  - right; now apply IH.
Qed.

(** A subsequence keeps the relative order: whatever splits the output
    around two of its elements splits the input around the same two. *)
Lemma subseq_order {A : Type} (l1 l2 : list A) :
  subseq l1 l2 ->
  forall a x b y c, l1 = a ++ x :: b ++ y :: c ->
  exists a' b' c', l2 = a' ++ x :: b' ++ y :: c'.
Proof.
  induction 1 as [|z l1 l2 Hs IH|z l1 l2 Hs IH]; intros a x b y c E.
  - destruct a; discriminate.
  - destruct a as [|a0 a]; simpl in E; inversion E; subst.
    + (* x is the head: find y further on *)
      clear IH E.
      assert (Hin : In y l2).
      { apply (subseq_In _ _ _ Hs). apply in_or_app. right. now left. }
      apply in_split in Hin as (b' & c' & ->).
      now exists [], b', c'.
    + destruct (IH _ _ _ _ _ eq_refl) as (a' & b' & c' & ->).
      now exists (a0 :: a'), b', c'.
  - destruct (IH _ _ _ _ _ E) as (a' & b' & c' & ->).
    now exists (z :: a'), b', c'.
Qed.

Lemma filter_filter {A : Type} (p q : A -> bool) (l : list A) :
  filter q (filter p l) = filter (fun x => p x && q x) l.
Proof.
  induction l as [|x l IH]; simpl; [reflexivity|].
  destruct (p x); simpl; [destruct (q x)|]; now rewrite IH.
Qed.

Lemma filter_true {A : Type} (l : list A) : filter (fun _ => true) l = l.
Proof. induction l as [|x l IH]; simpl; [reflexivity | now rewrite IH]. Qed.

Lemma filter_stage {A : Type} (b : bool) (p : A -> bool) (l : list A) :
  (if b then filter p l else l) = filter (fun x => if b then p x else true) l.
Proof. destruct b; [reflexivity | now rewrite filter_true]. Qed.

(** ** The filter as one predicate *)

Lemma date_stage_flat {L : Str.Lowering}
    (date_range : string) (xs : list EntityRecord) :
  date_stage date_range xs =
  if negb (String.eqb date_range "All Time")
     && truthy (date_source_map date_range)
  then filter (date_pred (date_source_map date_range)) xs else xs.
Proof.
  unfold date_stage.
  destruct (negb (String.eqb date_range "All Time")); simpl; reflexivity.
Qed.

(** The five stages compose by logical AND. *)
Lemma apply_filters_keeps {L : Str.Lowering} (results : list EntityRecord)
    (sources : list string) (entity_type : string) (min_score : Z)
    (jurisdiction : string) (date_range : string) :
  apply_filters results sources entity_type min_score jurisdiction date_range
  = filter (keeps sources entity_type min_score jurisdiction date_range)
           results.
Proof.
  unfold apply_filters, source_stage, type_stage, score_stage,
    jurisdiction_stage.
  rewrite date_stage_flat.
  rewrite !filter_stage, !filter_filter.
  reflexivity.
Qed.

Lemma apply_filters_subseq {L : Str.Lowering} (results : list EntityRecord)
    (sources : list string) (entity_type : string) (min_score : Z)
    (jurisdiction : string) (date_range : string) :
  subseq
    (apply_filters results sources entity_type min_score jurisdiction
                   date_range)
    results.
Proof. rewrite apply_filters_keeps. apply subseq_filter. Qed.

(** ** The filter on list objects *)

Lemma extends_refl (h : store) : extends h h.
Proof. exists []. now rewrite app_nil_r. Qed.

Lemma extends_trans (h1 h2 h3 : store) :
  extends h1 h2 -> extends h2 h3 -> extends h1 h3.
Proof.
  intros [f1 ->] [f2 ->]. exists (f1 ++ f2). now rewrite app_assoc.
Qed.

Lemma extends_deref (h h' : store) (p : ref) :
  extends h h' -> (p < List.length h)%nat -> deref h' p = deref h p.
Proof. intros [fresh ->] Hp. unfold deref. now rewrite app_nth1. Qed.

Lemma stage_obj_sound (active : bool) (pred : EntityRecord -> bool)
    (h : store) (p : ref) :
  (p < List.length h)%nat ->
  (snd (stage_obj active pred (h, p))
     < List.length (fst (stage_obj active pred (h, p))))%nat
  /\ extends h (fst (stage_obj active pred (h, p)))
  /\ deref (fst (stage_obj active pred (h, p)))
           (snd (stage_obj active pred (h, p)))
     = if active then filter pred (deref h p) else deref h p.
Proof.
  intros Hp. destruct active; simpl.
  - repeat split.
    + rewrite length_app; simpl; lia.
    + now exists [filter pred (deref h p)].
    + unfold deref at 1. rewrite app_nth2 by lia.
      now rewrite Nat.sub_diag.
  - repeat split; [assumption | apply extends_refl].
Qed.

Lemma apply_filters_obj_sound {L : Str.Lowering} (h : store) (results : ref)
    (sources : list string) (entity_type : string) (min_score : Z)
    (jurisdiction : string) (date_range : string) :
  (results < List.length h)%nat ->
  extends h (fst (apply_filters_obj h results sources entity_type min_score
                                    jurisdiction date_range))
  /\ deref (fst (apply_filters_obj h results sources entity_type min_score
                                   jurisdiction date_range))
           (snd (apply_filters_obj h results sources entity_type min_score
                                   jurisdiction date_range))
     = apply_filters (deref h results) sources entity_type min_score
                     jurisdiction date_range.
Proof.
  intros Hp. unfold apply_filters_obj, apply_filters.
  unfold source_stage, type_stage, score_stage, jurisdiction_stage.
  rewrite date_stage_flat.
  set (s1 := stage_obj (truthy sources) _ (h, results)).
  destruct (stage_obj_sound (truthy sources) (source_pred sources) h results Hp)
    as (L1 & E1 & D1). fold s1 in L1, E1, D1.
  destruct s1 as [h1 p1]; simpl in L1, E1, D1. rewrite <- D1.
  set (s2 := stage_obj (negb _) _ (h1, p1)).
  destruct (stage_obj_sound (negb (String.eqb entity_type "All"))
              (type_pred entity_type) h1 p1 L1) as (L2 & E2 & D2).
  fold s2 in L2, E2, D2.
  destruct s2 as [h2 p2]; simpl in L2, E2, D2. rewrite <- D2.
  set (s3 := stage_obj (min_score >? 0)%Z _ (h2, p2)).
  destruct (stage_obj_sound (min_score >? 0)%Z (score_pred min_score) h2 p2 L2)
    as (L3 & E3 & D3). fold s3 in L3, E3, D3.
  destruct s3 as [h3 p3]; simpl in L3, E3, D3. rewrite <- D3.
  set (s4 := stage_obj (truthy_str jurisdiction) _ (h3, p3)).
  destruct (stage_obj_sound (truthy_str jurisdiction)
              (jurisdiction_pred jurisdiction) h3 p3 L3) as (L4 & E4 & D4).
  fold s4 in L4, E4, D4.
  destruct s4 as [h4 p4]; simpl in L4, E4, D4. rewrite <- D4.
  destruct (stage_obj_sound
              (negb (String.eqb date_range "All Time")
               && truthy (date_source_map date_range))
              (date_pred (date_source_map date_range)) h4 p4 L4)
    as (L5 & E5 & D5).
  split; [|exact D5].
  eauto using extends_trans.
Qed.

(* ================================================================== *)
(** * The filter engine                                                *)
(* ================================================================== *)

(** C3.  With every criterion at its "no constraint" value (no source, type
    "All", minimum score 0, empty jurisdiction, "All Time") the filter
    returns its input: the same records in the same order, indeed the very
    list object it was given.  On an empty input it returns the empty list
    whatever the criteria. *)
Theorem apply_filters_no_constraint_identity {L : Str.Lowering} :
  (forall results : list EntityRecord,
      apply_filters results [] "All" 0 "" "All Time" = results)
  /\ (forall (h : store) (results : ref),
         apply_filters_obj h results [] "All" 0 "" "All Time" = (h, results))
  /\ (forall sources entity_type min_score jurisdiction date_range,
         apply_filters [] sources entity_type min_score jurisdiction date_range
         = []).
Proof.
  split; [|split].
  - intros results. reflexivity.
  - intros h results. reflexivity.
  - intros. rewrite apply_filters_keeps. reflexivity.
Qed.

Lemma apply_filters_no_constraint_identity_witness :
  apply_filters [Alpha; Beta] [] "All" 0 "" "All Time" = [Alpha; Beta]
  /\ apply_filters [] ["Panama Papers"] "Officer" 50 "panama"
                   "2013 (Offshore Leaks)" = [].
Proof.
  destruct (apply_filters_no_constraint_identity (L := Str.ascii_lowering))
    as (Hid & _ & Hnil).
  split; [apply Hid | apply Hnil].
Defined.


(** C4.  Called on the list object [results] of a store, the filter returns
    a list that is a subsequence of the input: it keeps the relative order
    of the records, it is no longer than the input, and every list object
    that existed before the call, the input among them, still holds the
    records it held. *)
Theorem apply_filters_subsequence {L : Str.Lowering} (h : store) (results : ref)
    (sources : list string) (entity_type : string) (min_score : Z)
    (jurisdiction : string) (date_range : string) :
  (results < List.length h)%nat ->
  deref (fst (apply_filters_obj h results sources entity_type min_score
                                jurisdiction date_range))
        (snd (apply_filters_obj h results sources entity_type min_score
                                jurisdiction date_range))
  = apply_filters (deref h results) sources entity_type min_score
                  jurisdiction date_range
  /\ subseq (apply_filters (deref h results) sources entity_type min_score
                           jurisdiction date_range)
            (deref h results)
  /\ (forall a x b y c,
         apply_filters (deref h results) sources entity_type min_score
                       jurisdiction date_range
         = a ++ x :: b ++ y :: c ->
         exists a' b' c', deref h results = a' ++ x :: b' ++ y :: c')
  /\ (List.length (apply_filters (deref h results) sources entity_type
                                 min_score jurisdiction date_range)
      <= List.length (deref h results))%nat
  /\ (forall p : ref,
         (p < List.length h)%nat ->
         deref (fst (apply_filters_obj h results sources entity_type
                                       min_score jurisdiction date_range)) p
         = deref h p).
Proof.
  intros Hp.
  destruct (apply_filters_obj_sound h results sources entity_type min_score
              jurisdiction date_range Hp) as [Hext Hout].
  pose proof (apply_filters_subseq (deref h results) sources entity_type
                min_score jurisdiction date_range) as Hsub.
  repeat split.
  - exact Hout.
  - exact Hsub.
  - apply subseq_order. exact Hsub.
  - apply subseq_length. exact Hsub.
  - intros p Hlt. now apply extends_deref.
Qed.

Lemma apply_filters_subsequence_witness :
  (0 < List.length [[Alpha; Beta]])%nat
  /\ subseq (apply_filters (deref [[Alpha; Beta]] 0) ["Panama Papers"] "All" 50
                           "" "All Time")
            (deref [[Alpha; Beta]] 0)
  /\ deref (fst (apply_filters_obj [[Alpha; Beta]] 0 ["Panama Papers"] "All"
                                   50 "" "All Time")) 0
     = [Alpha; Beta].
Proof.
  assert (H : (0 < List.length [[Alpha; Beta]])%nat) by (simpl; lia).
  split; [exact H|].
  destruct (apply_filters_subsequence [[Alpha; Beta]] 0%nat ["Panama Papers"]
              "All" 50 "" "All Time" H) as (_ & Hsub & _ & _ & Hsame).
  split; [exact Hsub | exact (Hsame 0%nat H)].
Defined.

(** C8.  The score filter runs iff the minimum score is above 0; a record
    then passes iff its score, read as 0 when absent, is greater than or
    equal to the minimum.  On the two records Alpha (score 90) and Beta
    (score 40) a minimum score of 50 leaves exactly Alpha. *)
Theorem score_filter_inclusive_threshold {L : Str.Lowering} :
  (forall (min_score : Z) (r : EntityRecord),
      score_pred min_score r = true
      <-> (inject_Z min_score <= match_score (card r))%Q)
  /\ (forall (min_score : Z) (xs : list EntityRecord),
         apply_filters xs [] "All" min_score "" "All Time"
         = if (min_score >? 0)%Z then filter (score_pred min_score) xs else xs)
  /\ (forall xs sources entity_type min_score jurisdiction date_range r,
         In r (apply_filters xs sources entity_type min_score jurisdiction
                             date_range) ->
         (min_score > 0)%Z ->
         (inject_Z min_score <= match_score (card r))%Q)
  /\ apply_filters [Alpha; Beta] [] "All" 50 "" "All Time" = [Alpha].
Proof.
  assert (Hpred : forall (min_score : Z) (r : EntityRecord),
             score_pred min_score r = true
             <-> (inject_Z min_score <= match_score (card r))%Q).
  { intros min_score r. unfold score_pred, card; simpl. apply Qle_bool_iff. }
  split; [exact Hpred|]. split; [|split].
  - intros min_score xs. reflexivity.
  - intros xs sources entity_type min_score jurisdiction date_range r Hin Hpos.
    rewrite apply_filters_keeps in Hin. apply filter_In in Hin as [_ Hk].
    unfold keeps in Hk.
    apply andb_true_iff in Hk as [_ Hk]. apply andb_true_iff in Hk as [_ Hk].
    apply andb_true_iff in Hk as [Hk _].
    apply Z.gtb_gt in Hpos. rewrite Hpos in Hk. now apply Hpred.
  - reflexivity.
Qed.

Lemma score_filter_inclusive_threshold_witness :
  apply_filters [Alpha; Beta] [] "All" 40 "" "All Time"
  = filter (score_pred 40) [Alpha; Beta]
  /\ score_pred 40 Beta = true.
Proof.
  destruct (score_filter_inclusive_threshold (L := Str.ascii_lowering))
    as (Hpred & Hrun & _).
  split; [apply (Hrun 40%Z) | apply Hpred; vm_compute; discriminate].
Defined.


(** C10.  A date range that is neither "All Time" nor one of the three
    mapped labels has an empty allow-list, and the date-range stage then
    does nothing: the filter behaves as it does for "All Time". *)
Theorem unmapped_date_range_is_no_constraint {L : Str.Lowering}
    (xs : list EntityRecord)
    (sources : list string) (entity_type : string) (min_score : Z)
    (jurisdiction : string) (date_range : string) :
  date_range <> "All Time" ->
  date_range <> "2021-Present (Pandora)" ->
  date_range <> "2016-2017 (Panama/Paradise/Bahamas)" ->
  date_range <> "2013 (Offshore Leaks)" ->
  date_source_map date_range = []
  /\ date_stage date_range xs = xs
  /\ apply_filters xs sources entity_type min_score jurisdiction date_range
     = apply_filters xs sources entity_type min_score jurisdiction "All Time".
Proof.
  intros _ H1 H2 H3.
  assert (Hmap : date_source_map date_range = []).
  { unfold date_source_map.
    apply String.eqb_neq in H1, H2, H3. now rewrite H1, H2, H3. }
  assert (Hstage : forall ys, date_stage date_range ys = ys).
  { intros ys. rewrite date_stage_flat, Hmap. simpl.
    now rewrite andb_false_r. }
  split; [exact Hmap|]. split; [apply Hstage|].
  unfold apply_filters. now rewrite Hstage.
Qed.

Lemma unmapped_date_range_is_no_constraint_witness :
  date_source_map "2020" = []
  /\ date_stage "2020" [Alpha; Beta] = [Alpha; Beta]
  /\ apply_filters [Alpha; Beta] [] "All" 0 "" "2020"
     = apply_filters [Alpha; Beta] [] "All" 0 "" "All Time".
Proof.
  apply (unmapped_date_range_is_no_constraint [Alpha; Beta] [] "All" 0 ""
           "2020"); discriminate.
Defined.

(* ================================================================== *)
(** * The result limiter                                               *)
(* ================================================================== *)

(** C7.  For a count [n] (a non-negative number; [main] passes 5 to 100) the
    limiter returns the first [n] records in their existing order and the
    whole list when it is shorter than [n]; it neither clamps [n] nor looks
    at scores; applying it twice is the same as applying it once. *)
Theorem limit_prefix_idempotent (xs : list EntityRecord) (n : Z) :
  (0 <= n)%Z ->
  limit xs n = firstn (Z.to_nat n) xs
  /\ (exists rest, xs = limit xs n ++ rest)
  /\ List.length (limit xs n) = Nat.min (Z.to_nat n) (List.length xs)
  /\ ((Z.of_nat (List.length xs) <= n)%Z -> limit xs n = xs)
  /\ limit (limit xs n) n = limit xs n.
Proof.
  intros Hn.
  assert (E : forall ys : list EntityRecord,
             limit ys n = firstn (Z.to_nat n) ys).
  { intros ys. unfold limit, slice_to.
    destruct (n <? 0)%Z eqn:Hneg; [apply Z.ltb_lt in Hneg; lia | reflexivity]. }
  split; [apply E|]. split; [|split; [|split]].
  - exists (skipn (Z.to_nat n) xs). rewrite E. symmetry. apply firstn_skipn.
  - rewrite E. apply length_firstn.
  - intros Hlen. rewrite E. apply firstn_all2. lia.
  - rewrite !E, firstn_firstn. now rewrite Nat.min_id.
Qed.

Lemma limit_prefix_idempotent_witness :
  limit [Beta; Alpha] 1 = firstn 1 [Beta; Alpha]
  /\ (exists rest, [Beta; Alpha] = limit [Beta; Alpha] 1 ++ rest)
  /\ List.length (limit [Beta; Alpha] 1) = Nat.min 1 2
  /\ ((Z.of_nat 2 <= 1)%Z -> limit [Beta; Alpha] 1 = [Beta; Alpha])
  /\ limit (limit [Beta; Alpha] 1) 1 = limit [Beta; Alpha] 1.
Proof.
  apply (limit_prefix_idempotent [Beta; Alpha] 1). lia.
Defined.

(** The scenario of the limiter, and the same records in the other order:
    the first record stays, whatever its score. *)
Example limit_scenario :
  limit [Alpha; Beta] 1 = [Alpha] /\ limit [Beta; Alpha] 1 = [Beta].
Proof. split; reflexivity. Qed.

(** Outside the domain of counts the slice counts from the end. *)
Example limit_negative_stop : limit [Alpha; Beta] (-1) = [Alpha].
Proof. reflexivity. Qed.

(* ================================================================== *)
(** * Substring predicates: sources, jurisdiction, date range          *)
(* ================================================================== *)

Lemma contains_lower_iff {L : Str.Lowering} (label text : string) :
  Str.contains (Str.lower label) (Str.lower text) = true
  <-> occurs_ci label text.
Proof. unfold occurs_ci. apply StrFacts.contains_iff. Qed.

Lemma source_pred_iff {L : Str.Lowering}
    (sources : list string) (r : EntityRecord) :
  source_pred sources r = true
  <-> exists label, In label sources
        /\ (occurs_ci label (get (rec_description r) "")
            \/ occurs_ci label (get (rec_name r) "")).
Proof.
  unfold source_pred, any. rewrite existsb_exists.
  split; intros (label & Hin & H); exists label; (split; [exact Hin|]).
  - apply orb_true_iff in H. now rewrite <- !contains_lower_iff.
  - apply orb_true_iff. now rewrite !contains_lower_iff.
Qed.

Lemma jurisdiction_pred_iff {L : Str.Lowering}
    (jurisdiction : string) (r : EntityRecord) :
  jurisdiction_pred jurisdiction r = true
  <-> occurs_ci jurisdiction (get (rec_description r) "")
      \/ occurs_ci jurisdiction (get (rec_name r) "").
Proof.
  unfold jurisdiction_pred. rewrite orb_true_iff.
  now rewrite !contains_lower_iff.
Qed.


Lemma jurisdiction_pred_lower {L : Str.Lowering} (j j' : string)
    (r : EntityRecord) :
  Str.lower j = Str.lower j' ->
  jurisdiction_pred j r = jurisdiction_pred j' r.
Proof. intros H. unfold jurisdiction_pred. now rewrite H. Qed.

Lemma source_pred_lower {L : Str.Lowering} (sources sources' : list string)
    (r : EntityRecord) :
  Forall2 (fun s s' => Str.lower s = Str.lower s') sources sources' ->
  source_pred sources r = source_pred sources' r.
Proof.
  unfold source_pred, any.
  induction 1 as [|s s' l l' Hs _ IH]; simpl; [reflexivity|].
  now rewrite Hs, IH.
Qed.

Lemma truthy_Forall2 {A B : Type} (R : A -> B -> Prop) (l : list A)
    (l' : list B) :
  Forall2 R l l' -> truthy l = truthy l'.
Proof. destruct 1; reflexivity. Qed.

(** Strings with the same lower-casing are both empty or both not. *)
Lemma truthy_str_lower {L : Str.Lowering} (j j' : string) :
  Str.lower j = Str.lower j' -> truthy_str j = truthy_str j'.
Proof.
  destruct j as [|c j], j' as [|c' j']; try reflexivity; intros H.
  - rewrite Str.lower_empty in H. symmetry in H.
    apply Str.lower_nonempty in H. discriminate.
  - rewrite Str.lower_empty in H. apply Str.lower_nonempty in H.
    discriminate.
Qed.

(** What a record kept by the whole filter has passed. *)
Lemma kept_passes_text_filters {L : Str.Lowering} (xs : list EntityRecord)
    (sources : list string) (entity_type : string) (min_score : Z)
    (jurisdiction : string) (date_range : string) (r : EntityRecord) :
  In r (apply_filters xs sources entity_type min_score jurisdiction
                      date_range) ->
  (sources <> [] -> source_pred sources r = true)
  /\ (jurisdiction <> "" -> jurisdiction_pred jurisdiction r = true)
  /\ (date_range <> "All Time" -> date_source_map date_range <> [] ->
      date_pred (date_source_map date_range) r = true).
Proof.
  intros Hin. rewrite apply_filters_keeps in Hin.
  apply filter_In in Hin as [_ Hk]. unfold keeps in Hk.
  rewrite !andb_true_iff in Hk. destruct Hk as (Hs & _ & _ & Hj & Hd).
  conjuncts.
  - intros Hne. destruct sources; [congruence | exact Hs].
  - intros Hne. destruct jurisdiction; [congruence | exact Hj].
  - intros Hne Hmap. apply String.eqb_neq in Hne. rewrite Hne in Hd.
    destruct (date_source_map date_range); [congruence | exact Hd].
Qed.

(** C5, as the code has it.  The source filter runs iff the allow-list is
    non-empty and keeps a record iff some allowed label occurs, both
    lower-cased, in the record's description or in its name, each read as
    the empty string when absent; the jurisdiction filter runs iff its string is
    non-empty and applies the same test to that string.  [apply_filters]
    runs both: alone they are its whole effect, and whatever else is
    selected a record it keeps has passed them.  Letter case enters through
    [str.lower] only: replacing the match strings by strings with the same
    lower-casing changes neither predicate nor the output of the filter. *)
Theorem source_and_jurisdiction_case_insensitive {L : Str.Lowering} :
  (forall xs, source_stage [] xs = xs)
  /\ (forall s sources xs,
         source_stage (s :: sources) xs
         = filter (source_pred (s :: sources)) xs)
  /\ (forall sources xs,
         apply_filters xs sources "All" 0 "" "All Time"
         = source_stage sources xs)
  /\ (forall sources r,
         source_pred sources r = true
         <-> exists label, In label sources
               /\ (occurs_ci label (get (rec_description r) "")
                   \/ occurs_ci label (get (rec_name r) "")))
  /\ (forall xs, jurisdiction_stage "" xs = xs)
  /\ (forall c j xs,
         jurisdiction_stage (String c j) xs
         = filter (jurisdiction_pred (String c j)) xs)
  /\ (forall jurisdiction xs,
         apply_filters xs [] "All" 0 jurisdiction "All Time"
         = jurisdiction_stage jurisdiction xs)
  /\ (forall jurisdiction r,
         jurisdiction_pred jurisdiction r = true
         <-> occurs_ci jurisdiction (get (rec_description r) "")
             \/ occurs_ci jurisdiction (get (rec_name r) ""))
  /\ (forall xs sources entity_type min_score jurisdiction date_range r,
         In r (apply_filters xs sources entity_type min_score jurisdiction
                             date_range) ->
         (sources <> [] -> source_pred sources r = true)
         /\ (jurisdiction <> "" -> jurisdiction_pred jurisdiction r = true))
  /\ (forall xs sources sources' entity_type min_score j j' date_range,
         Forall2 (fun s s' => Str.lower s = Str.lower s') sources sources' ->
         Str.lower j = Str.lower j' ->
         (forall r, source_pred sources r = source_pred sources' r)
         /\ (forall r, jurisdiction_pred j r = jurisdiction_pred j' r)
         /\ apply_filters xs sources entity_type min_score j date_range
            = apply_filters xs sources' entity_type min_score j' date_range).
Proof.
  conjuncts; try reflexivity.
  - intros sources r. apply source_pred_iff.
  - intros jurisdiction r. apply jurisdiction_pred_iff.
  - intros xs sources entity_type min_score jurisdiction date_range r Hin.
    destruct (kept_passes_text_filters _ _ _ _ _ _ _ Hin) as (Hs & Hj & _).
    split; assumption.
  - intros xs sources sources' entity_type min_score j j' date_range Hs Hj.
    conjuncts.
    + intros r. now apply source_pred_lower.
    + intros r. now apply jurisdiction_pred_lower.
    + rewrite !apply_filters_keeps. apply filter_ext. intros r.
      unfold keeps.
      rewrite (truthy_Forall2 _ _ _ Hs), (source_pred_lower _ _ r Hs).
      now rewrite (truthy_str_lower _ _ Hj), (jurisdiction_pred_lower _ _ r Hj).
Qed.

Lemma source_and_jurisdiction_case_insensitive_witness :
  apply_filters [Alpha; Beta] ["Panama Papers"] "All" 0 "entity" "All Time"
  = apply_filters [Alpha; Beta] ["PANAMA PAPERS"] "All" 0 "ENTITY" "All Time".
Proof.
  destruct (source_and_jurisdiction_case_insensitive (L := Str.ascii_lowering))
    as (_ & _ & _ & _ & _ & _ & _ & _ & _ & H).
  apply (H [Alpha; Beta] ["Panama Papers"] ["PANAMA PAPERS"] "All" 0%Z
           "entity" "ENTITY" "All Time").
  - constructor; [reflexivity | constructor].
  - reflexivity.
Defined.

(** C5 as stated fails in two places.  Where the name is absent: the
    display path reads the name of [Nameless] as "Unknown Entity", in which
    "entity" occurs, and the description does not contain it, yet the
    jurisdiction filter drops the record.  And where a change of letter
    case changes the lower-casing: the dotless i of [irmak] is written I in
    upper case, and "IRMAK" is lower-cased to "irmak" with a dotted i, so
    the record found under the one spelling is not found under the
    other. *)
Lemma jurisdiction_effective_name_counterexample :
  ~ (In Nameless (apply_filters [Nameless] [] "All" 0 "entity" "All Time")
     <-> (occurs_ci "entity" (description (card Nameless))
          \/ occurs_ci "entity" (entity_name (card Nameless))))
  /\ apply_filters [Nehir] [] "All" 0 irmak "All Time" = [Nehir]
  /\ apply_filters [Nehir] [] "All" 0 "IRMAK" "All Time" = [].
Proof.
  split; [|split; reflexivity].
  intros [_ H].
  assert (Hocc : occurs_ci "entity" (entity_name (card Nameless))).
  { now exists "unknown ", "". }
  exact (H (or_intror Hocc)).
Qed.

(** The scenario of the source filter. *)
Example source_scenario :
  apply_filters [Alpha; Beta] ["Panama Papers"] "All" 0 "" "All Time" = [Alpha].
Proof. reflexivity. Qed.



(** A record named after a source does not pass the date-range filter on
    that account, while the source filter finds it by its name. *)
Example date_range_ignores_the_name :
  apply_filters
    [{| rec_id := None; rec_name := Some "Offshore Leaks Ltd";
        rec_score := None; rec_description := Some "Unrelated";
        rec_types := None |}]
    [] "All" 0 "" "2013 (Offshore Leaks)" = []
  /\ apply_filters
       [{| rec_id := None; rec_name := Some "Offshore Leaks Ltd";
           rec_score := None; rec_description := Some "Unrelated";
           rec_types := None |}]
       ["Offshore Leaks"] "All" 0 "" "All Time"
     <> [].
Proof. split; [reflexivity | discriminate]. Qed.

(* ================================================================== *)
(** * The entity-type filter and the effective type                    *)
(* ================================================================== *)

Lemma type_pred_iff (entity_type : string) (r : EntityRecord) :
  type_pred entity_type r = true
  <-> exists t rest,
        rec_types r = Some (t :: rest) /\ get (tag_name t) "" = entity_type.
Proof.
  unfold type_pred. destruct (rec_types r) as [[|t rest]|]; simpl.
  - split; [discriminate | intros (t & rest & H & _); discriminate].
  - rewrite String.eqb_eq. split.
    + intros H. now exists t, rest.
    + intros (t' & rest' & H & E). now inversion H; subst.
  - split; [discriminate | intros (t & rest & H & _); discriminate].
Qed.

(** C1, as the code has it.  Under a type constraint other than "All" the
    filter keeps a record iff its [types] list is present and non-empty and
    the name of its first element, read as the empty string when absent,
    equals the constraint exactly.  A record whose [types] is absent or
    empty is dropped by every such constraint, while the display path shows
    it as "Entity"; the export resolves an empty [types] list to "Entity".
    Where the first element carries a name, the filter's test is the test
    "effective type = constraint". *)
Theorem type_filter_first_tag_exact {L : Str.Lowering} (entity_type : string) :
  entity_type <> "All" ->
  (forall xs,
      apply_filters xs [] entity_type 0 "" "All Time"
      = filter (type_pred entity_type) xs)
  /\ (forall xs sources min_score jurisdiction date_range r,
         In r (apply_filters xs sources entity_type min_score jurisdiction
                             date_range) ->
         type_pred entity_type r = true)
  /\ (forall r,
         type_pred entity_type r = true
         <-> exists t rest,
               rec_types r = Some (t :: rest)
               /\ get (tag_name t) "" = entity_type)
  /\ (forall r,
         truthy_list (rec_types r) = false ->
         type_pred entity_type r = false /\ effective_type r = "Entity")
  /\ (forall r t rest name,
         rec_types r = Some (t :: rest) ->
         tag_name t = Some name ->
         (type_pred entity_type r = true <-> effective_type r = entity_type))
  /\ type_of_cell (Tags []) = Ok (Str "Entity").
Proof.
  intros Hall. apply String.eqb_neq in Hall.
  conjuncts.
  - intros xs. unfold apply_filters, source_stage, type_stage, score_stage,
      jurisdiction_stage, date_stage; simpl. now rewrite Hall.
  - intros xs sources min_score jurisdiction date_range r Hin.
    rewrite apply_filters_keeps in Hin. apply filter_In in Hin as [_ Hk].
    unfold keeps in Hk. rewrite Hall in Hk. simpl in Hk.
    apply andb_true_iff in Hk as [_ Hk].
    now apply andb_true_iff in Hk as [Hk _].
  - intros r. apply type_pred_iff.
  - intros r Hfalsy. unfold type_pred, effective_type.
    now rewrite Hfalsy.
  - intros r t rest name Ht Hn. rewrite type_pred_iff.
    unfold effective_type. rewrite Ht; simpl. rewrite Hn; simpl. split.
    + intros (t' & rest' & E & H). inversion E; subst t' rest'.
      now rewrite Hn in H.
    + intros <-. exists t, rest. now rewrite Hn.
  - reflexivity.
Qed.

Lemma type_filter_first_tag_exact_witness :
  apply_filters [Acme; Nameless; Bare] [] "Officer" 0 "" "All Time"
  = filter (type_pred "Officer") [Acme; Nameless; Bare]
  /\ apply_filters [Acme; Nameless; Bare] [] "Officer" 0 "" "All Time" = [Acme]
  /\ apply_filters [Acme; Nameless; Bare] [] "Entity" 0 "" "All Time" = [].
Proof.
  assert (H : "Officer" <> "All") by discriminate.
  destruct (type_filter_first_tag_exact "Officer" H) as (Hf & _).
  split; [apply Hf|]. split; reflexivity.
Defined.

(** C1 as stated fails on a record without [types]: its effective type is
    "Entity", yet the constraint "Entity" does not keep it. *)
Lemma type_filter_missing_types_counterexample :
  "Entity" <> "All"
  /\ rec_types Bare = None
  /\ ~ (In Bare (apply_filters [Bare] [] "Entity" 0 "" "All Time")
        <-> effective_type Bare = "Entity").
Proof.
  split; [discriminate|]. split; [reflexivity|].
  intros [_ H]. exact (H eq_refl).
Qed.

(* ================================================================== *)
(** * The export table                                                 *)
(* ================================================================== *)

Lemma combine_map {A B C : Type} (f : A -> B) (g : A -> C) (l : list A) :
  combine (map f l) (map g l) = map (fun x => (f x, g x)) l.
Proof. induction l as [|x l IH]; simpl; [reflexivity | now rewrite IH]. Qed.

Lemma combine_map_const {A B C : Type} (f : A -> B) (c : C) (l : list A) :
  combine (map f l) (map (fun _ => c) (map f l)) = map (fun x => (f x, c)) l.
Proof. induction l as [|x l IH]; simpl; [reflexivity | now rewrite IH]. Qed.

(** The Type column: one [TypeError] as soon as one record lacks the key. *)
Lemma type_column (records : list EntityRecord) :
  mapM type_of_cell (map (fun r => cell_of r K_types) records)
  = if forallb (has_key K_types) records
    then Ok (map (fun r => Str (effective_type r)) records)
    else Raise TypeError.
Proof.
  induction records as [|r rs IH]; [reflexivity|].
  cbn [map mapM forallb]. rewrite IH.
  unfold cell_of, has_key, lookup, effective_type.
  destruct (rec_types r) as [[|t ts]|]; simpl; try reflexivity;
    destruct (forallb _ rs); reflexivity.
Qed.

Ltac rowwise :=
  repeat (rewrite ?map_map, ?combine_map, ?combine_map_const;
          cbn [fst snd app nth values columns bind]).

(** What lines 890-903 compute, case by case. *)
Lemma prepare_export_eq (env : Env) (query : string)
    (records : list EntityRecord) :
  prepare_export env query records =
  if existsb (has_key K_name) records && existsb (has_key K_score) records
     && existsb (has_key K_id) records
  then
    if existsb (has_key K_types) records then
      if forallb (has_key K_types) records
      then Ok (export_table env query true records)
      else Raise TypeError
    else Ok (export_table env query false records)
  else Raise KeyError.
Proof.
  unfold prepare_export, DataFrame_of, has_column, column, select, set_scalar.
  cbn [all_keys filter columns values].
  destruct (existsb (has_key K_id) records);
    destruct (existsb (has_key K_name) records);
    destruct (existsb (has_key K_score) records);
    destruct (existsb (has_key K_description) records);
    destruct (existsb (has_key K_types) records);
    cbn -[type_of_cell cell_of format ICIJ_NODE_URL String.append];
    try reflexivity.
  all: rewrite ?map_map; cbn [nth]; rewrite ?type_column.
  all: try (destruct (forallb (has_key K_types) records); [|reflexivity]).
  all: cbn [bind]; unfold set_column;
    cbn -[type_of_cell cell_of format ICIJ_NODE_URL String.append].
  all: rowwise.
  all: reflexivity.
Qed.

Lemma select_export_table (env : Env) (query : string) (with_type : bool)
    (records : list EntityRecord) :
  select (export_table env query with_type records)
         ["Entity Name"; "Match Score"; "ICIJ ID"]
  = Ok {| columns := ["Entity Name"; "Match Score"; "ICIJ ID"];
          values := map (fun r => [cell_of r K_name; cell_of r K_score;
                                   cell_of r K_id]) records |}.
Proof.
  unfold select, export_table.
  destruct with_type; cbn -[cell_of format ICIJ_NODE_URL String.append];
    now rewrite map_map.
Qed.

Lemma prepare_export_inv (env : Env) (query : string)
    (records : list EntityRecord) (df : DataFrame) :
  prepare_export env query records = Ok df ->
  df = export_table env query (existsb (has_key K_types) records) records.
Proof.
  rewrite prepare_export_eq.
  destruct (_ && _); [|discriminate].
  destruct (existsb (has_key K_types) records).
  - destruct (forallb _ _); [|discriminate]. now intros [= <-].
  - now intros [= <-].
Qed.

Lemma forallb_existsb {A : Type} (p : A -> bool) (l : list A) :
  l <> [] -> forallb p l = true -> existsb p l = true.
Proof.
  destruct l as [|x l]; [congruence|]. simpl. intros _ H.
  apply andb_true_iff in H as [-> _]. reflexivity.
Qed.

Lemma complete_cells (env : Env) (query : string) (r : EntityRecord) :
  complete r = true ->
  export_row env query true r
  = [Str (entity_name (card r)); Num (match_score (card r));
     Str (entity_id (card r)); Str (effective_type r);
     Str query; Str (now env);
     Str (ICIJ_NODE_URL ++ entity_id (card r))]
  /\ get (rec_name r) "" = entity_name (card r).
Proof.
  unfold complete, has_key, export_row, cell_of, lookup, card.
  destruct (rec_name r), (rec_score r), (rec_id r), (rec_types r);
    simpl; try discriminate.
  intros _. split; reflexivity.
Qed.

(** The export succeeds on a non-empty result set of complete records. *)
Lemma prepare_export_complete (env : Env) (query : string)
    (records : list EntityRecord) :
  records <> [] ->
  forallb complete records = true ->
  prepare_export env query records = Ok (export_table env query true records).
Proof.
  intros Hne Hall.
  assert (Hk : forall k, In k [K_name; K_score; K_id; K_types] ->
                         forallb (has_key k) records = true).
  { intros k Hin. apply forallb_forall. intros r Hr.
    pose proof (proj1 (forallb_forall _ _) Hall r Hr) as Hc.
    unfold complete in Hc.
    apply andb_true_iff in Hc as [Hc H4]. apply andb_true_iff in Hc as [Hc H3].
    apply andb_true_iff in Hc as [H1 H2].
    simpl in Hin. destruct Hin as [<-|[<-|[<-|[<-|[]]]]]; assumption. }
  rewrite prepare_export_eq.
  rewrite !(forallb_existsb _ _ Hne) by (apply Hk; simpl; tauto).
  rewrite Hk by (simpl; tauto). reflexivity.
Qed.

(** C2, as the code has it.  The display path reads a record through the
    fallbacks name "Unknown Entity", score 0, description "" and type
    "Entity".  The filter reads score and description through the same
    fallbacks.  The export copies name, score and id without a fallback.
    On a non-empty result set whose records all carry name, score, id and
    types the three paths agree: the export succeeds and each of its rows
    holds the name, score, id and type that the display path shows, and the
    filter's substring tests read the name the display path shows. *)
Theorem fallbacks_agree_on_complete_records {L : Str.Lowering}
    (env : Env) (query : string)
    (records : list EntityRecord) :
  records <> [] ->
  forallb complete records = true ->
  prepare_export env query records = Ok (export_table env query true records)
  /\ (forall r, In r records ->
        export_row env query true r
        = [Str (entity_name (card r)); Num (match_score (card r));
           Str (entity_id (card r)); Str (entity_type (card r));
           Str query; Str (now env);
           Str (ICIJ_NODE_URL ++ entity_id (card r))]
        /\ (forall jurisdiction,
               jurisdiction_pred jurisdiction r
               = Str.contains (Str.lower jurisdiction)
                              (Str.lower (description (card r)))
                 || Str.contains (Str.lower jurisdiction)
                                 (Str.lower (entity_name (card r))))
        /\ (forall sources,
               source_pred sources r
               = any (fun source =>
                        Str.contains (Str.lower source)
                                     (Str.lower (description (card r)))
                        || Str.contains (Str.lower source)
                                        (Str.lower (entity_name (card r))))
                     sources))
  /\ (forall r min_score,
         score_pred min_score r
         = Qle_bool (inject_Z min_score) (match_score (card r)))
  /\ (forall r allowed_sources,
         date_pred allowed_sources r
         = any (fun src =>
                  Str.contains (Str.lower src)
                               (Str.lower (description (card r))))
               allowed_sources).
Proof.
  intros Hne Hall. conjuncts; try reflexivity.
  - now apply prepare_export_complete.
  - intros r Hr.
    pose proof (proj1 (forallb_forall _ _) Hall r Hr) as Hc.
    destruct (complete_cells env query r Hc) as [Hrow Hname].
    conjuncts.
    + exact Hrow.
    + intros jurisdiction. unfold jurisdiction_pred. now rewrite Hname.
    + intros sources. unfold source_pred. now rewrite Hname.
Qed.

Lemma fallbacks_agree_on_complete_records_witness :
  prepare_export sample_env "acme" [Acme]
  = Ok (export_table sample_env "acme" true [Acme])
  /\ export_row sample_env "acme" true Acme
     = [Str "Acme Holdings Ltd"; Num 90%Q; Str "10000001"; Str "Officer";
        Str "acme"; Str "2025-01-01 12:00:00";
        Str "https://offshoreleaks.icij.org/nodes/10000001"].
Proof.
  assert (Hne : [Acme] <> []) by discriminate.
  assert (Hall : forallb complete [Acme] = true) by reflexivity.
  destruct (fallbacks_agree_on_complete_records sample_env "acme" [Acme]
              Hne Hall) as (Hexp & Hrows & _).
  split; [exact Hexp|].
  exact (proj1 (Hrows Acme (or_introl eq_refl))).
Defined.

(** C2 as stated fails on a record without a name: after the filter (all
    criteria at "no constraint") and the limiter, the export of
    [Acme; Nameless] succeeds, but its name column does not hold the names
    the display path shows: the second cell is missing, not
    "Unknown Entity". *)
Lemma export_fallback_counterexample :
  ~ (exists df,
        prepare_export sample_env "acme"
          (limit (apply_filters [Acme; Nameless] [] "All" 0 "" "All Time") 20)
        = Ok df
        /\ map (fun row => nth 0 row NaN) (values df)
           = map (fun r => Str (entity_name (card r))) [Acme; Nameless]).
Proof.
  intros (df & Hdf & Hnames).
  apply prepare_export_inv in Hdf. subst df.
  vm_compute in Hnames. discriminate.
Qed.

(** What the export does in that case, and on records without the keys it
    selects or with a [types] key that only some records carry. *)
Example export_examples :
  prepare_export sample_env "acme" [Acme; Nameless]
  = Ok {| columns := ["Entity Name"; "Match Score"; "ICIJ ID"; "Type";
                      "Search Query"; "Search Date"; "ICIJ Link"];
          values :=
            [[Str "Acme Holdings Ltd"; Num 90%Q; Str "10000001";
              Str "Officer"; Str "acme"; Str "2025-01-01 12:00:00";
              Str "https://offshoreleaks.icij.org/nodes/10000001"];
             [NaN; Num 40%Q; Str "10000002"; Str "Entity"; Str "acme";
              Str "2025-01-01 12:00:00";
              Str "https://offshoreleaks.icij.org/nodes/10000002"]] |}
  /\ prepare_export sample_env "acme" [Bare] = Raise KeyError
  /\ prepare_export sample_env "acme" [Acme; Bare] = Raise TypeError.
Proof. conjuncts; reflexivity. Qed.

(* ================================================================== *)
(** * The three formatters' inputs                                     *)
(* ================================================================== *)

Lemma export_inputs_eq (env : Env) (query : string)
    (records : list EntityRecord) :
  export_inputs env query records =
  df_export <- prepare_export env query records ;;
  Ok {| csv_input := df_export; excel_input := df_export;
        pdf_input :=
          {| columns := ["Entity Name"; "Match Score"; "ICIJ ID"];
             values := map (fun r => [cell_of r K_name; cell_of r K_score;
                                      cell_of r K_id]) records |} |}.
Proof.
  unfold export_inputs.
  destruct (prepare_export env query records) as [df|err] eqn:E;
    [|reflexivity].
  apply prepare_export_inv in E. subst df. cbn [bind].
  now rewrite select_export_table.
Qed.

(** C9.  Whenever the export is built, the document formatter is handed a
    table of exactly three columns, entity name, match score and id, one
    row per record with these three cells of the export row; its table has
    the header row on top and the fixed column widths 2, 0.8 and 1.5 inch,
    whatever the cells hold.  The delimited-table and spreadsheet
    formatters are handed the whole export table, of six or seven
    columns. *)
Theorem pdf_table_three_fixed_columns (env : Env) (query : string)
    (records : list EntityRecord) (e : Exports) :
  export_inputs env query records = Ok e ->
  columns (pdf_input e) = ["Entity Name"; "Match Score"; "ICIJ ID"]
  /\ values (pdf_input e)
     = map (fun r => [cell_of r K_name; cell_of r K_score; cell_of r K_id])
           records
  /\ values (pdf_input e) = map (firstn 3) (values (csv_input e))
  /\ fst (pdf_table (pdf_input e))
     = [Str "Entity Name"; Str "Match Score"; Str "ICIJ ID"]
       :: values (pdf_input e)
  /\ snd (pdf_table (pdf_input e))
     = [(2 * inch)%Q; (0.8 * inch)%Q; (1.5 * inch)%Q]
  /\ excel_input e = csv_input e
  /\ csv_input e
     = export_table env query (existsb (has_key K_types) records) records
  /\ (List.length (columns (csv_input e)) = 6%nat
      \/ List.length (columns (csv_input e)) = 7%nat)
  /\ Forall (fun row => List.length row
                        = List.length (columns (csv_input e)))
            (values (csv_input e)).
Proof.
  rewrite export_inputs_eq.
  destruct (prepare_export env query records) as [df|err] eqn:E;
    [|discriminate].
  apply prepare_export_inv in E. subst df. cbn [bind].
  intros [= <-]. cbn [pdf_input csv_input excel_input columns values].
  conjuncts; try reflexivity.
  - unfold export_table; cbn [values]. rewrite map_map.
    apply map_ext. intros r. destruct (existsb _ records); reflexivity.
  - destruct (existsb _ records); [right | left]; reflexivity.
  - unfold export_table; cbn [values columns].
    apply Forall_forall. intros row Hin.
    apply in_map_iff in Hin as (r & <- & _).
    destruct (existsb _ records); reflexivity.
Qed.

Lemma pdf_table_three_fixed_columns_witness :
  exists e,
    export_inputs sample_env "acme" [Acme; Nameless] = Ok e
    /\ values (pdf_input e)
       = [[Str "Acme Holdings Ltd"; Num 90%Q; Str "10000001"];
          [NaN; Num 40%Q; Str "10000002"]]
    /\ snd (pdf_table (pdf_input e))
       = [(2 * inch)%Q; (0.8 * inch)%Q; (1.5 * inch)%Q]
    /\ List.length (columns (csv_input e)) = 7%nat.
Proof.
  destruct (export_inputs sample_env "acme" [Acme; Nameless]) as [e|err] eqn:E;
    [|vm_compute in E; discriminate].
  exists e. split; [reflexivity|].
  destruct (pdf_table_three_fixed_columns sample_env "acme" [Acme; Nameless]
              e E) as (_ & Hv & _ & _ & Hw & _ & Hcsv & _).
  split; [exact Hv|]. split; [exact Hw|].
  rewrite Hcsv. reflexivity.
Defined.

(** [create_pdf_export] itself would widen a larger table: the narrowing
    to three columns is done by its caller. *)
Example pdf_table_of_wider_frame :
  snd (pdf_table (export_table sample_env "acme" false [Acme]))
  = [(2 * inch)%Q; (0.8 * inch)%Q; (1.5 * inch)%Q;
     (1.2 * inch)%Q; (1.2 * inch)%Q; (1.2 * inch)%Q].
Proof. reflexivity. Qed.

(* ================================================================== *)
(** * Further properties of the filter                                 *)
(* ================================================================== *)

Lemma subseq_filter_weaken {A : Type} (p q : A -> bool) (l : list A) :
  (forall x, p x = true -> q x = true) ->
  subseq (filter p l) (filter q l).
Proof.
  intros Hpq. induction l as [|x l IH]; simpl; [constructor|].
  destruct (p x) eqn:Hp.
  - rewrite (Hpq x Hp). now constructor.
  - destruct (q x); [constructor|]; assumption.
Qed.

(** X1.  Filtering an already filtered list with the same criteria changes
    nothing. *)
Theorem apply_filters_idempotent {L : Str.Lowering}
    (results : list EntityRecord)
    (sources : list string) (entity_type : string) (min_score : Z)
    (jurisdiction : string) (date_range : string) :
  apply_filters
    (apply_filters results sources entity_type min_score jurisdiction
                   date_range)
    sources entity_type min_score jurisdiction date_range
  = apply_filters results sources entity_type min_score jurisdiction
                  date_range.
Proof.
  rewrite !apply_filters_keeps, filter_filter.
  apply filter_ext. intros r. now destruct (keeps _ _ _ _ _ r).
Qed.

Lemma apply_filters_idempotent_witness :
  apply_filters
    (apply_filters [Acme; Nameless; Bare] ["Panama Papers"] "All" 50 "panama"
                   "All Time")
    ["Panama Papers"] "All" 50 "panama" "All Time"
  = apply_filters [Acme; Nameless; Bare] ["Panama Papers"] "All" 50 "panama"
                  "All Time".
Proof.
  apply (apply_filters_idempotent [Acme; Nameless; Bare] ["Panama Papers"]
           "All" 50 "panama" "All Time").
Defined.


(** X2.  The filter judges each record on its own: a record is in the
    output iff it is in the input and meets the active criteria, and the
    filter of a concatenation is the concatenation of the filters. *)
Theorem apply_filters_recordwise {L : Str.Lowering} (xs ys : list EntityRecord)
    (sources : list string) (entity_type : string) (min_score : Z)
    (jurisdiction : string) (date_range : string) :
  (forall r,
      In r (apply_filters xs sources entity_type min_score jurisdiction
                          date_range)
      <-> In r xs
          /\ keeps sources entity_type min_score jurisdiction date_range r
             = true)
  /\ apply_filters (xs ++ ys) sources entity_type min_score jurisdiction
                   date_range
     = apply_filters xs sources entity_type min_score jurisdiction date_range
       ++ apply_filters ys sources entity_type min_score jurisdiction
                        date_range.
Proof.
  split.
  - intros r. rewrite apply_filters_keeps. apply filter_In.
  - rewrite !apply_filters_keeps. apply filter_app.
Qed.

Lemma apply_filters_recordwise_witness :
  apply_filters ([Acme] ++ [Nameless; Bare]) [] "All" 50 "" "All Time"
  = apply_filters [Acme] [] "All" 50 "" "All Time"
    ++ apply_filters [Nameless; Bare] [] "All" 50 "" "All Time".
Proof.
  apply (apply_filters_recordwise [Acme] [Nameless; Bare] [] "All" 50 ""
           "All Time").
Defined.


(** X3.  Raising the minimum score never brings a record back: the output
    for the higher threshold is a subsequence of the output for the lower
    one, the other criteria being the same. *)
Theorem apply_filters_min_score_monotone {L : Str.Lowering}
    (results : list EntityRecord)
    (sources : list string) (entity_type : string) (low high : Z)
    (jurisdiction : string) (date_range : string) :
  (low <= high)%Z ->
  subseq
    (apply_filters results sources entity_type high jurisdiction date_range)
    (apply_filters results sources entity_type low jurisdiction date_range).
Proof.
  intros Hle. rewrite !apply_filters_keeps. apply subseq_filter_weaken.
  intros r. unfold keeps. rewrite !andb_true_iff.
  intros (H1 & H2 & H3 & H4 & H5). repeat split; try assumption.
  destruct (low >? 0)%Z eqn:Hlow; [|reflexivity].
  apply Z.gtb_gt in Hlow.
  assert (Hhigh : (high >? 0)%Z = true) by (apply Z.gtb_gt; lia).
  rewrite Hhigh in H3. unfold score_pred in *.
  apply Qle_bool_iff. apply Qle_bool_iff in H3.
  apply Qle_trans with (y := inject_Z high); [|exact H3].
  rewrite <- Zle_Qle. exact Hle.
Qed.

Lemma apply_filters_min_score_monotone_witness :
  subseq (apply_filters [Acme; Nameless; Bare] [] "All" 80 "" "All Time")
         (apply_filters [Acme; Nameless; Bare] [] "All" 50 "" "All Time").
Proof.
  apply (apply_filters_min_score_monotone [Acme; Nameless; Bare] [] "All"
           50 80 "" "All Time").
  lia.
Defined.

(* ================================================================== *)
(** * Further properties of the export                                 *)
(* ================================================================== *)

(** X4.  How building the export table ends.  It raises [KeyError] exactly
    when one of the keys name, score, id is carried by no record of the
    result set; it raises [TypeError] exactly when these three columns
    exist and the types key is carried by some records but not by all; it
    never raises [AttributeError]; otherwise it yields the table with one
    row per record, in order. *)
Theorem export_outcomes (env : Env) (query : string)
    (records : list EntityRecord) :
  (prepare_export env query records = Raise KeyError
   <-> existsb (has_key K_name) records && existsb (has_key K_score) records
       && existsb (has_key K_id) records = false)
  /\ (prepare_export env query records = Raise TypeError
      <-> existsb (has_key K_name) records && existsb (has_key K_score) records
          && existsb (has_key K_id) records = true
          /\ existsb (has_key K_types) records = true
          /\ forallb (has_key K_types) records = false)
  /\ prepare_export env query records <> Raise AttributeError
  /\ (forall df,
         prepare_export env query records = Ok df ->
         df = export_table env query (existsb (has_key K_types) records)
                           records
         /\ List.length (values df) = List.length records).
Proof.
  conjuncts.
  - rewrite prepare_export_eq.
    destruct (_ && _); [|tauto].
    destruct (existsb (has_key K_types) records);
      [destruct (forallb (has_key K_types) records)|];
      split; discriminate.
  - rewrite prepare_export_eq.
    destruct (_ && _); [|split; [discriminate | intros (H & _); discriminate]].
    destruct (existsb (has_key K_types) records);
      [destruct (forallb (has_key K_types) records)|].
    + split; [discriminate | intros (_ & _ & H); discriminate].
    + tauto.
    + split; [discriminate | intros (_ & H & _); discriminate].
  - rewrite prepare_export_eq.
    destruct (_ && _); [|discriminate].
    destruct (existsb (has_key K_types) records);
      [destruct (forallb (has_key K_types) records)|]; discriminate.
  - intros df Hdf. apply prepare_export_inv in Hdf. subst df.
    split; [reflexivity|]. unfold export_table; cbn [values].
    apply length_map.
Qed.

Lemma export_outcomes_witness :
  prepare_export sample_env "acme" [Acme; Bare] = Raise TypeError
  /\ prepare_export sample_env "acme" [] = Raise KeyError.
Proof.
  destruct (export_outcomes sample_env "acme" [Acme; Bare]) as (_ & [_ H] & _).
  destruct (export_outcomes sample_env "acme" []) as ([_ H'] & _).
  split; [apply H; repeat split | apply H']; reflexivity.
Defined.

(** X5.  [create_pdf_export] gives its table exactly one width per column,
    whatever frame it is handed: 2, 0.8 and 1.5 inch for the first three
    columns and 1.2 inch for every further one; the table is the header
    row followed by the rows of the frame. *)
Theorem pdf_table_one_width_per_column (df_export : DataFrame) :
  List.length (snd (pdf_table df_export))
  = List.length (columns df_export)
  /\ (forall i,
         (i < List.length (columns df_export))%nat ->
         nth i (snd (pdf_table df_export)) 0%Q
         = nth i [(2 * inch)%Q; (0.8 * inch)%Q; (1.5 * inch)%Q]
               (1.2 * inch)%Q)
  /\ List.length (fst (pdf_table df_export))
     = S (List.length (values df_export))
  /\ fst (pdf_table df_export)
     = map Str (columns df_export) :: values df_export.
Proof.
  unfold pdf_table. cbn [fst snd].
  set (n := List.length (columns df_export)).
  set (base := [(2 * inch)%Q; (0.8 * inch)%Q; (1.5 * inch)%Q]).
  conjuncts.
  - destruct (3 <? n)%nat eqn:Hn.
    + apply Nat.ltb_lt in Hn.
      rewrite length_firstn, length_app, repeat_length. simpl. lia.
    + apply Nat.ltb_ge in Hn. rewrite length_firstn. simpl. lia.
  - intros i Hi. rewrite nth_firstn.
    apply Nat.ltb_lt in Hi as Hi'. fold n in Hi'. rewrite Hi'.
    destruct (3 <? n)%nat eqn:Hn;
      [|apply Nat.ltb_ge in Hn; apply nth_indep; simpl; lia].
    apply Nat.ltb_lt in Hn.
    destruct (Nat.lt_ge_cases i 3) as [Hi3|Hi3].
    + rewrite app_nth1 by (simpl; lia).
      destruct i as [|[|[|i]]]; try reflexivity. lia.
    + rewrite app_nth2 by (simpl; lia).
      rewrite (nth_overflow base) by (simpl; lia).
      rewrite nth_repeat_lt by (simpl; lia). reflexivity.
  - simpl. now rewrite ?length_map.
  - reflexivity.
Qed.

Lemma pdf_table_one_width_per_column_witness :
  nth 4 (snd (pdf_table (export_table sample_env "acme" true [Acme]))) 0%Q
  = (1.2 * inch)%Q.
Proof.
  destruct (pdf_table_one_width_per_column
              (export_table sample_env "acme" true [Acme])) as (_ & H & _).
  apply (H 4%nat). simpl. lia.
Defined.

(* ================================================================== *)
(** * History rows: how the selected sources are stored and read back  *)
(* ================================================================== *)

Module PyStrFacts.
Import PyStr.

Lemma split_not_nil (sep : ascii) (s : string) : split sep s <> [].
Proof.
  destruct s as [|c s]; simpl; [discriminate|].
  destruct (Ascii.eqb c sep); [discriminate|].
  destruct (split sep s); discriminate.
Qed.

(** A string without the separator is one part. *)
Lemma split_one (sep : ascii) (s : string) :
  has_char sep s = false -> split sep s = [s].
Proof.
  induction s as [|c s IH]; simpl; [reflexivity|].
  intros H. apply orb_false_iff in H as [Hc Hs].
  rewrite Hc, (IH Hs). reflexivity.
Qed.

(** The first separator ends the first part. *)
Lemma split_app (sep : ascii) (p rest : string) :
  has_char sep p = false ->
  split sep (p ++ String sep rest) = p :: split sep rest.
Proof.
  induction p as [|c p IH]; simpl.
  - intros _. now rewrite Ascii.eqb_refl.
  - intros H. apply orb_false_iff in H as [Hc Hp].
    rewrite Hc, (IH Hp). reflexivity.
Qed.

Lemma split_join (sep : ascii) (parts : list string) :
  parts <> [] ->
  Forall (fun p => has_char sep p = false) parts ->
  split sep (join (String sep "") parts) = parts.
Proof.
  intros Hne Hall. induction Hall as [|p rest Hp Hrest IH]; [congruence|].
  destruct rest as [|q rest].
  - simpl. now apply split_one.
  - change (join (String sep "") (p :: q :: rest))
      with (p ++ String sep (join (String sep "") (q :: rest)))%string.
    rewrite (split_app _ _ _ Hp). f_equal. apply IH. discriminate.
Qed.

(** A string that is not empty never splits into the single empty part. *)
Lemma split_single_empty (sep : ascii) (s : string) :
  split sep s = [""] -> s = "".
Proof.
  destruct s as [|c s]; [reflexivity|]. simpl.
  destruct (Ascii.eqb c sep).
  - intros H. inversion H as [Hnil]. now apply split_not_nil in Hnil.
  - destruct (split sep s); discriminate.
Qed.

Lemma join_empty (sep : string) (parts : list string) :
  join sep parts = "" -> sep <> "" -> parts = [] \/ parts = [""].
Proof.
  destruct parts as [|p [|q rest]]; simpl.
  - now left.
  - intros ->. now right.
  - intros H Hsep. destruct p; [|discriminate]. simpl in H.
    destruct sep; [congruence | discriminate].
Qed.

Lemma replace_no_old (old new : ascii) (s : string) :
  old <> new -> has_char old (replace old new s) = false.
Proof.
  intros Hne. induction s as [|c s IH]; simpl; [reflexivity|].
  rewrite IH, orb_false_r.
  destruct (Ascii.eqb c old) eqn:Hc; [|exact Hc].
  apply Ascii.eqb_neq. congruence.
Qed.

Lemma has_char_app (c : ascii) (s t : string) :
  has_char c (s ++ t) = has_char c s || has_char c t.
Proof.
  induction s as [|d s IH]; simpl; [reflexivity|].
  now rewrite IH, orb_assoc.
Qed.

Lemma length_append (s t : string) :
  String.length (s ++ t) = (String.length s + String.length t)%nat.
Proof. induction s as [|c s IH]; simpl; [reflexivity | now rewrite IH]. Qed.

Lemma replace_length (old new : ascii) (s : string) :
  String.length (replace old new s) = String.length s.
Proof. induction s as [|c s IH]; simpl; [reflexivity | now rewrite IH]. Qed.

End PyStrFacts.

Lemma sources_list_of_sources_str (sources : list string) :
  Forall (fun label => PyStr.has_char "," label = false) sources ->
  sources <> [""] ->
  sources_list (sources_str sources) = sources.
Proof.
  intros Hcomma Hne. unfold sources_str, sources_list.
  destruct sources as [|s rest]; [reflexivity|]. cbn [truthy].
  destruct (PyStr.join "," (s :: rest)) eqn:Hj.
  - apply PyStrFacts.join_empty in Hj as [H|H]; [discriminate | congruence |].
    discriminate.
  - cbn [truthy_str]. rewrite <- Hj.
    apply (PyStrFacts.split_join ","%char); [discriminate | exact Hcomma].
Qed.

(** X6.  Round trip of the stored sources: a selection whose labels hold
    no comma, and which is not the single empty label, is read back from
    the history exactly as it was saved. *)
Theorem sources_saved_and_read_back (sources : list string) :
  Forall (fun label => PyStr.has_char "," label = false) sources ->
  sources <> [""] ->
  sources_list (sources_str sources) = sources.
Proof. exact (sources_list_of_sources_str sources). Qed.

Lemma sources_saved_and_read_back_witness :
  sources_list (sources_str ["Panama Papers"; "Bahamas Leaks"])
  = ["Panama Papers"; "Bahamas Leaks"].
Proof.
  apply sources_saved_and_read_back.
  - repeat constructor.
  - discriminate.
Defined.

(** The two exclusions are needed. *)
Example sources_not_read_back :
  sources_list (sources_str ["Panama, Papers"]) = ["Panama"; " Papers"]
  /\ sources_list (sources_str [""]) = [].
Proof. split; reflexivity. Qed.

Lemma stored_text_read_back (stored : string) :
  sources_list stored <> [""]
  /\ named_sources (sources_list stored) = truthy_str stored
  /\ sources_display (sources_list stored)
     = if truthy_str stored then PyStr.join ", " (PyStr.split "," stored)
       else "All sources".
Proof.
  assert (Hne : sources_list stored <> [""]).
  { unfold sources_list. destruct stored as [|c s]; [discriminate|].
    cbn [truthy_str]. intros H.
    apply PyStrFacts.split_single_empty in H. discriminate. }
  assert (Hnamed : named_sources (sources_list stored) = truthy_str stored).
  { unfold named_sources. revert Hne. unfold sources_list.
    destruct stored as [|c s]; [reflexivity|]. cbn [truthy_str].
    pose proof (PyStrFacts.split_not_nil ","%char (String c s)) as Hnil.
    destruct (PyStr.split "," (String c s)) as [|p [|q l]];
      [congruence | | destruct p; reflexivity].
    destruct p; [congruence | reflexivity]. }
  conjuncts; [exact Hne | exact Hnamed |].
  unfold sources_display. rewrite Hnamed.
  unfold sources_list. now destruct (truthy_str stored).
Qed.

(** X7.  The stored text decides what the history shows: "All sources"
    exactly for the empty text, and otherwise the comma-separated parts
    joined by ", ".  The comparison with [['']] never decides anything,
    since no stored text is read back as the single empty label. *)
Theorem sources_display_of_stored_text (stored : string) :
  sources_list stored <> [""]
  /\ named_sources (sources_list stored) = truthy_str stored
  /\ sources_display (sources_list stored)
     = if truthy_str stored then PyStr.join ", " (PyStr.split "," stored)
       else "All sources".
Proof. exact (stored_text_read_back stored). Qed.

Lemma all_sources_fold (history : list HistoryRow) (acc : list string) :
  fold_left
    (fun all_sources row =>
       let sources_list := sources_list (row_sources row) in
       if named_sources sources_list then all_sources ++ sources_list
       else all_sources)
    history acc
  = acc ++ flat_map (fun row => sources_list (row_sources row)) history.
Proof.
  revert acc. induction history as [|row history IH]; intros acc; simpl.
  - now rewrite app_nil_r.
  - rewrite IH.
    destruct (stored_text_read_back (row_sources row)) as (_ & Hnamed & _).
    rewrite Hnamed. unfold sources_list at 1 3.
    destruct (truthy_str (row_sources row)).
    + now rewrite app_assoc.
    + reflexivity.
Qed.

(** X8.  The labels counted by the source-distribution chart are the
    stored selections of the history rows, read back and concatenated in
    the order of the rows; for rows saved from selections of comma-free,
    non-empty labels they are these selections, concatenated. *)
Theorem all_sources_are_the_saved_selections :
  (forall history,
      all_sources history
      = flat_map (fun row => sources_list (row_sources row)) history)
  /\ (forall (searches : list (string * list string * nat)) (date : string),
         Forall (fun search =>
                   Forall (fun label => PyStr.has_char "," label = false
                                        /\ label <> "")
                          (snd (fst search)))
                searches ->
         all_sources
           (map (fun search =>
                   let v := history_values (fst (fst search))
                              (snd (fst search)) (snd search) in
                   mkRow (fst (fst v)) (snd (fst v)) (snd v) date)
                searches)
         = List.concat (map (fun search => snd (fst search)) searches)).
Proof.
  split.
  - intros history. unfold all_sources. apply all_sources_fold.
  - intros searches date Hall. unfold all_sources. rewrite all_sources_fold.
    cbn [app]. induction Hall as [|search searches Hs _ IH];
      [reflexivity|].
    cbn [map flat_map List.concat]. rewrite IH. f_equal.
    cbn [history_values fst snd row_sources].
    apply sources_list_of_sources_str.
    + eapply Forall_impl; [|exact Hs]. now intros label [H _].
    + intros E. rewrite E in Hs. inversion Hs as [|? ? [_ Hne] _].
      now apply Hne.
Qed.

Lemma all_sources_are_the_saved_selections_witness :
  all_sources [mkRow "acme" "Panama Papers,Bahamas Leaks" 3 "2025-01-01";
               mkRow "smith" "" 0 "2025-01-01";
               mkRow "jones" "Offshore Leaks" 7 "2025-01-01"]
  = ["Panama Papers"; "Bahamas Leaks"; "Offshore Leaks"].
Proof.
  destruct all_sources_are_the_saved_selections as [_ H].
  apply (H [("acme", ["Panama Papers"; "Bahamas Leaks"], 3%nat);
            ("smith", [], 0%nat);
            ("jones", ["Offshore Leaks"], 7%nat)] "2025-01-01").
  repeat constructor; discriminate.
Defined.

(* ================================================================== *)
(** * The search call and the search tab                               *)
(* ================================================================== *)

Lemma search_not_empty_list (outcome : HttpOutcome) :
  fst (search_icij_database outcome) <> Some [].
Proof.
  destruct outcome as [| | message | [[[[[|r result]|]|v]|]|v]]; cbn;
    try discriminate;
    destruct (lookup_raises _ v); discriminate.
Qed.




Lemma enumerate_fst {A : Type} (xs : list A) (start : nat) :
  map fst (enumerate xs start) = seq start (List.length xs).
Proof.
  unfold enumerate. revert start.
  induction xs as [|x xs IH]; intros start; simpl; [reflexivity|].
  now rewrite IH.
Qed.

Lemma enumerate_snd {A : Type} (xs : list A) (start : nat) :
  map snd (enumerate xs start) = xs.
Proof.
  unfold enumerate. revert start.
  induction xs as [|x xs IH]; intros start; simpl; [reflexivity|].
  now rewrite IH.
Qed.

Lemma enumerate_length {A : Type} (xs : list A) (start : nat) :
  List.length (enumerate xs start) = List.length xs.
Proof. rewrite <- (length_map snd). now rewrite enumerate_snd. Qed.

Lemma subseq_firstn {A : Type} (n : nat) (l : list A) : subseq (firstn n l) l.
Proof.
  revert l. induction n as [|n IH]; intros [|x l]; simpl;
    try constructor; auto.
  induction l; constructor; assumption.
Qed.

Lemma subseq_nil_l {A : Type} (l : list A) : subseq [] l.
Proof. induction l; constructor; assumption. Qed.

Lemma limit_subseq (xs : list EntityRecord) (n : Z) : subseq (limit xs n) xs.
Proof.
  unfold limit, slice_to. destruct (n <? 0)%Z; apply subseq_firstn.
Qed.

Lemma limit_length (xs : list EntityRecord) (n : Z) :
  (0 <= n)%Z -> (Z.of_nat (List.length (limit xs n)) <= n)%Z.
Proof.
  intros Hn. unfold limit, slice_to.
  destruct (n <? 0)%Z eqn:E; [apply Z.ltb_lt in E; lia|].
  rewrite length_firstn. lia.
Qed.

Lemma limit_nil_iff (xs : list EntityRecord) (n : Z) :
  (1 <= n)%Z -> limit xs n = [] <-> xs = [].
Proof.
  intros Hn. unfold limit, slice_to.
  destruct (n <? 0)%Z eqn:E; [apply Z.ltb_lt in E; lia|].
  destruct xs as [|x xs]; [now rewrite firstn_nil|].
  destruct (Z.to_nat n) eqn:Hz; [lia|]. simpl. split; discriminate.
Qed.

(** The records whose cards are shown. *)
Lemma search_tab_cards_eq {L : Str.Lowering} (env : Env) (form : SearchForm)
    (outcome : HttpOutcome) :
  cards_of (fst (fst (search_tab env form outcome)))
  = if truthy_str (form_query form)
       && truthy_results (fst (search_icij_database outcome))
    then
      map (fun ir => result_card (form_sources form) (fst ir) (snd ir))
          (enumerate
             (limit
                (apply_filters (get (fst (search_icij_database outcome)) [])
                   (form_sources form) (form_entity_type form)
                   (form_min_score form) (form_jurisdiction form)
                   (form_date_range form))
                (form_max_results form))
             1)
    else [].
Proof.
  unfold search_tab.
  destruct (truthy_str (form_query form)); [|reflexivity].
  destruct (search_icij_database outcome) as [results errors]. cbn [fst andb].
  destruct (truthy_results results); [|reflexivity].
  destruct (limit _ _) as [|r shown] eqn:E; reflexivity.
Qed.

(** X10.  The search tab saves what it shows.  A history row is handed to
    [save_search_history] exactly when a query was entered and the search
    returned records; the row holds the query, the selected sources as
    stored text, and the number of cards on the page (0 on the "nothing
    matches" page).  That number never exceeds the number of records the
    search returned, nor the maximum when the maximum is not negative. *)
Theorem search_tab_saves_what_it_shows {L : Str.Lowering}
    (env : Env) (form : SearchForm)
    (outcome : HttpOutcome) :
  snd (search_tab env form outcome)
  = (if truthy_str (form_query form)
        && truthy_results (fst (search_icij_database outcome))
     then [(form_query form, sources_str (form_sources form),
            List.length (cards_of (fst (fst (search_tab env form outcome)))))]
     else [])
  /\ (List.length (cards_of (fst (fst (search_tab env form outcome))))
      <= List.length (get (fst (search_icij_database outcome)) []))%nat
  /\ ((0 <= form_max_results form)%Z ->
      (Z.of_nat
         (List.length (cards_of (fst (fst (search_tab env form outcome)))))
       <= form_max_results form)%Z).
Proof.
  rewrite search_tab_cards_eq.
  conjuncts.
  - unfold search_tab.
    destruct (truthy_str (form_query form)); [|reflexivity].
    destruct (search_icij_database outcome) as [results errors].
    cbn [fst andb].
    destruct (truthy_results results); [|reflexivity].
    rewrite length_map, enumerate_length. unfold history_values.
    destruct (limit _ _) as [|r shown]; reflexivity.
  - destruct (_ && _); [|simpl; lia].
    rewrite length_map, enumerate_length.
    etransitivity; [apply subseq_length, limit_subseq|].
    apply subseq_length, apply_filters_subseq.
  - intros Hmax. destruct (_ && _); [|simpl; lia].
    rewrite length_map, enumerate_length. now apply limit_length.
Qed.

Lemma search_tab_saves_what_it_shows_witness :
  snd (search_tab sample_env
         (mkForm "acme" ["Panama Papers"] "All" 0 20 "" "All Time")
         (Responded (mkData (Some (mkQ0 (Some [Acme; Nameless; Bare]))))))
  = [("acme", "Panama Papers", 1%nat)].
Proof.
  destruct (search_tab_saves_what_it_shows sample_env
              (mkForm "acme" ["Panama Papers"] "All" 0 20 "" "All Time")
              (Responded (mkData (Some (mkQ0 (Some [Acme; Nameless; Bare]))))))
    as (H & _).
  rewrite H. reflexivity.
Defined.

(** X11.  With a maximum of at least 1 (the form allows 5 to 100), the
    "nothing matches the selected filters" page appears exactly when a
    query was entered, the search returned records, and the filter kept
    none of them; the limiter never empties a page. *)
Theorem nothing_matches_iff_filter_keeps_none {L : Str.Lowering}
    (env : Env) (form : SearchForm)
    (outcome : HttpOutcome) :
  (1 <= form_max_results form)%Z ->
  fst (fst (search_tab env form outcome)) = NothingMatches
  <-> form_query form <> ""
      /\ exists results,
           fst (search_icij_database outcome) = Some results
           /\ apply_filters results (form_sources form) (form_entity_type form)
                (form_min_score form) (form_jurisdiction form)
                (form_date_range form) = [].
Proof.
  intros Hmax. unfold search_tab.
  destruct (form_query form) as [|c q] eqn:Hq; cbn [truthy_str].
  - split; [discriminate | intros [H _]; congruence].
  - pose proof (search_not_empty_list outcome) as Hnever.
    destruct (search_icij_database outcome) as [[[|r results]|] errors];
      cbn [fst snd truthy_results get] in *.
    + congruence.
    + destruct (limit _ _) as [|x shown] eqn:E; cbn [truthy fst].
      * apply (proj1 (limit_nil_iff _ _ Hmax)) in E. split; [|reflexivity].
        intros _. split; [discriminate|]. now exists (r :: results).
      * split; [discriminate|]. intros (_ & results' & [= <-] & Hnil).
        rewrite Hnil in E. unfold limit, slice_to in E.
        destruct (_ <? 0)%Z; rewrite firstn_nil in E; discriminate.
    + split; [discriminate|]. intros (_ & results' & H & _). discriminate.
Qed.

Lemma nothing_matches_iff_filter_keeps_none_witness :
  fst (fst (search_tab sample_env
              (mkForm "acme" [] "Intermediary" 0 5 "" "All Time")
              (Responded (mkData (Some (mkQ0 (Some [Acme; Bare])))))))
  = NothingMatches.
Proof.
  apply (nothing_matches_iff_filter_keeps_none sample_env
           (mkForm "acme" [] "Intermediary" 0 5 "" "All Time")
           (Responded (mkData (Some (mkQ0 (Some [Acme; Bare])))))).
  - simpl. lia.
  - split; [discriminate|]. exists [Acme; Bare]. split; reflexivity.
Defined.

(** X12.  The cards of a page are numbered 1, 2, ... and show, in the
    order of the search results, records that the search returned and that
    meet the active criteria. *)
Theorem cards_are_kept_records_in_order {L : Str.Lowering}
    (env : Env) (form : SearchForm)
    (outcome : HttpOutcome) :
  exists shown,
    subseq shown (get (fst (search_icij_database outcome)) [])
    /\ Forall (fun r => keeps (form_sources form) (form_entity_type form)
                          (form_min_score form) (form_jurisdiction form)
                          (form_date_range form) r = true) shown
    /\ map rc_fields (cards_of (fst (fst (search_tab env form outcome))))
       = map card shown
    /\ map rc_idx (cards_of (fst (fst (search_tab env form outcome))))
       = seq 1 (List.length shown).
Proof.
  rewrite search_tab_cards_eq.
  destruct (_ && _).
  - set (kept := apply_filters _ _ _ _ _ _).
    exists (limit kept (form_max_results form)). conjuncts.
    + eapply subseq_trans; [apply limit_subseq | apply apply_filters_subseq].
    + apply Forall_forall. intros r Hr.
      apply (subseq_In _ _ _ (limit_subseq _ _)) in Hr.
      unfold kept in Hr. rewrite apply_filters_keeps in Hr.
      now apply filter_In in Hr.
    + rewrite map_map. cbn [result_card rc_fields].
      rewrite <- (map_map snd card). now rewrite enumerate_snd.
    + rewrite map_map. cbn [result_card rc_idx].
      change (map (fun x => fst x) ?l) with (map fst l).
      apply enumerate_fst.
  - exists []. conjuncts; try reflexivity; [apply subseq_nil_l | constructor].
Qed.

Lemma cards_are_kept_records_in_order_witness :
  exists shown,
    subseq shown [Acme; Nameless; Bare]
    /\ map rc_idx
         (cards_of
            (fst (fst (search_tab sample_env
                         (mkForm "acme" [] "All" 50 20 "" "All Time")
                         (Responded
                            (mkData
                               (Some (mkQ0 (Some [Acme; Nameless; Bare])))))))))
       = seq 1 (List.length shown).
Proof.
  destruct (cards_are_kept_records_in_order sample_env
              (mkForm "acme" [] "All" 50 20 "" "All Time")
              (Responded (mkData (Some (mkQ0 (Some [Acme; Nameless; Bare]))))))
    as (shown & Hsub & _ & _ & Hidx).
  exists shown. split; [exact Hsub | exact Hidx].
Defined.


(* ================================================================== *)
(** * Result cards                                                     *)
(* ================================================================== *)

(** X13.  Match quality of what a score threshold lets through: with a
    minimum score of 80 or more every record kept is rated HIGH, and with
    a minimum of 50 or more none is rated LOW. *)
Theorem kept_records_match_quality {L : Str.Lowering} (xs : list EntityRecord)
    (sources : list string) (entity_type : string) (min_score : Z)
    (jurisdiction : string) (date_range : string) (r : EntityRecord) :
  In r (apply_filters xs sources entity_type min_score jurisdiction
                      date_range) ->
  ((80 <= min_score)%Z -> match_quality (match_score (card r)) = "HIGH")
  /\ ((50 <= min_score)%Z -> match_quality (match_score (card r)) <> "LOW").
Proof.
  intros Hin.
  assert (Hscore : (0 < min_score)%Z ->
                   (inject_Z min_score <= match_score (card r))%Q).
  { intros Hpos. rewrite apply_filters_keeps in Hin.
    apply filter_In in Hin as [_ Hk]. unfold keeps in Hk.
    rewrite !andb_true_iff in Hk. destruct Hk as (_ & _ & Hk & _).
    assert (Hgt : (min_score >? 0)%Z = true) by (apply Z.gtb_gt; lia).
    rewrite Hgt in Hk. now apply Qle_bool_iff in Hk. }
  assert (Hq : forall k : Z, (0 < k)%Z -> (k <= min_score)%Z ->
                 Qle_bool (inject_Z k) (match_score (card r)) = true).
  { intros k Hk Hle. apply Qle_bool_iff.
    apply Qle_trans with (y := inject_Z min_score); [|apply Hscore; lia].
    now rewrite <- Zle_Qle. }
  unfold match_quality. split; intros Hmin.
  - change 80%Q with (inject_Z 80). rewrite Hq by lia. reflexivity.
  - change 50%Q with (inject_Z 50). rewrite (Hq 50%Z) by lia.
    destruct (Qle_bool 80 _); discriminate.
Qed.

Lemma kept_records_match_quality_witness :
  match_quality (match_score (card Acme)) = "HIGH".
Proof.
  assert (Hin : In Acme (apply_filters [Acme; Nameless; Bare] [] "All" 80 ""
                                       "All Time")) by (left; reflexivity).
  destruct (kept_records_match_quality _ _ _ _ _ _ _ Hin) as [H _].
  apply H. lia.
Defined.

Lemma contains_empty_hay (needle : string) :
  Str.contains needle "" = true -> needle = "".
Proof. destruct needle; [reflexivity | discriminate]. Qed.

Lemma contains_empty_needle (hay : string) : Str.contains "" hay = true.
Proof. destruct hay; reflexivity. Qed.

Lemma append_not_empty (s t : string) : t <> "" -> (s ++ t)%string <> "".
Proof. destruct s; simpl; [auto | discriminate]. Qed.

Lemma tags_stay (test : string -> bool) (l : list string) (acc : string) :
  acc <> "" ->
  fold_left (fun tags source =>
               if test source then (tags ++ source_badge source)%string
               else tags) l acc <> "".
Proof.
  revert acc. induction l as [|x l IH]; intros acc Hacc; simpl; [exact Hacc|].
  apply IH. destruct (test x); [|exact Hacc].
  apply append_not_empty. discriminate.
Qed.

Lemma tags_appear (test : string -> bool) (l : list string) (acc : string) :
  existsb test l = true ->
  fold_left (fun tags source =>
               if test source then (tags ++ source_badge source)%string
               else tags) l acc <> "".
Proof.
  revert acc. induction l as [|x l IH]; intros acc; simpl; [discriminate|].
  destruct (test x); simpl.
  - intros _. apply tags_stay. apply append_not_empty. discriminate.
  - apply IH.
Qed.

Lemma existsb_weaken {A : Type} (p q : A -> bool) (l : list A) :
  (forall x, p x = true -> q x = true) ->
  existsb p l = true -> existsb q l = true.
Proof.
  intros Hpq. rewrite !existsb_exists. intros (x & Hin & Hp).
  exists x. auto.
Qed.

(** X14.  Every record that the source filter keeps is shown with at
    least one source badge, although the card matches the sources against
    the displayed name ("Unknown Entity" when absent) and the filter
    against the stored one. *)
Theorem kept_records_carry_a_badge {L : Str.Lowering} (xs : list EntityRecord)
    (sources : list string) (entity_type : string) (min_score : Z)
    (jurisdiction : string) (date_range : string) (idx : nat)
    (r : EntityRecord) :
  sources <> [] ->
  In r (apply_filters xs sources entity_type min_score jurisdiction
                      date_range) ->
  rc_tags (result_card sources idx r) <> "".
Proof.
  intros Hne Hin. rewrite apply_filters_keeps in Hin.
  apply filter_In in Hin as [_ Hk]. unfold keeps in Hk.
  apply andb_true_iff in Hk as [Hk _].
  assert (Ht : truthy sources = true)
    by (destruct sources; [congruence | reflexivity]).
  rewrite Ht in Hk. cbn [result_card rc_tags]. unfold source_tags.
  rewrite Ht. apply tags_appear.
  unfold source_pred, any in Hk. revert Hk. apply existsb_weaken.
  intros source. unfold card; cbn [description entity_name].
  destruct (rec_name r) as [name|]; cbn [get]; [auto|].
  rewrite !orb_true_iff. intros [H|H]; [now left | right].
  rewrite Str.lower_empty in H.
  apply contains_empty_hay in H. rewrite H. apply contains_empty_needle.
Qed.

Lemma kept_records_carry_a_badge_witness :
  rc_tags (result_card ["Offshore Leaks"] 1 Bare) <> "".
Proof.
  apply (kept_records_carry_a_badge [Acme; Bare] ["Offshore Leaks"] "All" 0
           "" "All Time" 1 Bare).
  - discriminate.
  - left. reflexivity.
Defined.

(* ================================================================== *)
(** * The comparison list                                              *)
(* ================================================================== *)

Lemma option_eqb_refl {A : Type} (eqb : A -> A -> bool) (x : option A) :
  (forall a, eqb a a = true) -> option_eqb eqb x x = true.
Proof. intros H. destruct x; simpl; auto. Qed.

Lemma option_eqb_sym {A : Type} (eqb : A -> A -> bool) (x y : option A) :
  (forall a b, eqb a b = eqb b a) -> option_eqb eqb x y = option_eqb eqb y x.
Proof. intros H. destruct x, y; simpl; auto. Qed.

Lemma list_eqb_refl {A : Type} (eqb : A -> A -> bool) (l : list A) :
  (forall a, eqb a a = true) -> list_eqb eqb l l = true.
Proof.
  intros H. induction l as [|x l IH]; simpl; [reflexivity|].
  now rewrite H, IH.
Qed.

Lemma list_eqb_sym {A : Type} (eqb : A -> A -> bool) (l1 l2 : list A) :
  (forall a b, eqb a b = eqb b a) -> list_eqb eqb l1 l2 = list_eqb eqb l2 l1.
Proof.
  intros H. revert l2. induction l1 as [|x l1 IH]; intros [|y l2]; simpl;
    try reflexivity.
  now rewrite H, IH.
Qed.

Lemma record_eqb_refl (r : EntityRecord) : record_eqb r r = true.
Proof.
  unfold record_eqb.
  rewrite !(option_eqb_refl String.eqb) by apply String.eqb_refl.
  rewrite (option_eqb_refl Qeq_bool) by apply Qeq_bool_refl.
  rewrite option_eqb_refl; [reflexivity|].
  intros l. apply list_eqb_refl. intros t. unfold tag_eqb.
  apply option_eqb_refl, String.eqb_refl.
Qed.

Lemma record_eqb_sym (r s : EntityRecord) : record_eqb r s = record_eqb s r.
Proof.
  unfold record_eqb.
  rewrite (option_eqb_sym String.eqb (rec_id r)) by apply String.eqb_sym.
  rewrite (option_eqb_sym String.eqb (rec_name r)) by apply String.eqb_sym.
  rewrite (option_eqb_sym Qeq_bool (rec_score r)) by apply Qeq_bool_comm.
  rewrite (option_eqb_sym String.eqb (rec_description r))
    by apply String.eqb_sym.
  rewrite (option_eqb_sym (list_eqb tag_eqb) (rec_types r)); [reflexivity|].
  intros l1 l2. apply list_eqb_sym. intros t u. unfold tag_eqb.
  apply option_eqb_sym, String.eqb_sym.
Qed.

Lemma in_list_app (r : EntityRecord) (l1 l2 : list EntityRecord) :
  in_list r (l1 ++ l2) = in_list r l1 || in_list r l2.
Proof. unfold in_list. apply existsb_app. Qed.

Lemma distinct_snoc (r : EntityRecord) (l : list EntityRecord) :
  distinct l = true -> in_list r l = false -> distinct (l ++ [r]) = true.
Proof.
  induction l as [|x l IH]; simpl; [reflexivity|].
  intros Hd Hr. apply andb_true_iff in Hd as [Hx Hd].
  apply orb_false_iff in Hr as [Hxr Hr].
  rewrite in_list_app, (IH Hd Hr), andb_true_r.
  apply negb_true_iff in Hx. rewrite Hx. simpl.
  now rewrite orb_false_r, record_eqb_sym, Hxr.
Qed.

(** X15.  The "Add" button keeps the comparison list free of repeated
    records: after it the record is in the list, a list without repeats
    stays without repeats, the earlier entries keep their places, and
    pressing the button again changes nothing. *)
Theorem add_to_comparison_no_repeats (r : EntityRecord)
    (comparison_list : list EntityRecord) :
  in_list r (add_to_comparison r comparison_list) = true
  /\ (distinct comparison_list = true ->
      distinct (add_to_comparison r comparison_list) = true)
  /\ (add_to_comparison r comparison_list = comparison_list
      \/ add_to_comparison r comparison_list = comparison_list ++ [r])
  /\ add_to_comparison r (add_to_comparison r comparison_list)
     = add_to_comparison r comparison_list.
Proof.
  assert (Hin : in_list r (add_to_comparison r comparison_list) = true).
  { unfold add_to_comparison.
    destruct (in_list r comparison_list) eqn:E; simpl; [exact E|].
    rewrite in_list_app. simpl. now rewrite record_eqb_refl, orb_true_r. }
  conjuncts.
  - exact Hin.
  - intros Hd. unfold add_to_comparison.
    destruct (in_list r comparison_list) eqn:E; simpl; [exact Hd|].
    now apply distinct_snoc.
  - unfold add_to_comparison.
    destruct (in_list r comparison_list); simpl; auto.
  - unfold add_to_comparison at 1. now rewrite Hin.
Qed.

Lemma add_to_comparison_no_repeats_witness :
  distinct (add_to_comparison Acme [Bare; Acme]) = true
  /\ distinct (add_to_comparison Nameless [Bare; Acme]) = true.
Proof.
  destruct (add_to_comparison_no_repeats Acme [Bare; Acme]) as (_ & H1 & _).
  destruct (add_to_comparison_no_repeats Nameless [Bare; Acme])
    as (_ & H2 & _).
  split; [apply H1 | apply H2]; reflexivity.
Defined.

Lemma pop_spec {A : Type} (l : list A) (i : nat) :
  (i < List.length l)%nat ->
  pop l i = Some (firstn i l ++ skipn (S i) l).
Proof.
  revert i. induction l as [|x l IH]; intros i Hi; simpl in Hi; [lia|].
  destruct i as [|i]; [reflexivity|].
  simpl. rewrite IH by lia. reflexivity.
Qed.

Lemma pop_out_of_range {A : Type} (l : list A) (i : nat) :
  (List.length l <= i)%nat -> pop l i = None.
Proof.
  revert i. induction l as [|x l IH]; intros i Hi; [reflexivity|].
  simpl in Hi. destruct i as [|i]; [lia|]. simpl. rewrite IH by lia.
  reflexivity.
Qed.

Lemma subseq_pop {A : Type} (i : nat) (l : list A) :
  subseq (firstn i l ++ skipn (S i) l) l.
Proof.
  revert l. induction i as [|i IH]; intros [|x l]; simpl;
    try constructor.
  - apply subseq_refl.
  - apply IH.
Qed.

Lemma in_list_subseq (r : EntityRecord) (l1 l2 : list EntityRecord) :
  subseq l1 l2 -> in_list r l1 = true -> in_list r l2 = true.
Proof.
  induction 1 as [|x l1 l2 _ IH|x l1 l2 _ IH]; simpl; [auto| |].
  - rewrite !orb_true_iff. intros [H|H]; auto.
  - intros H. rewrite (IH H). apply orb_true_r.
Qed.

Lemma distinct_subseq (l1 l2 : list EntityRecord) :
  subseq l1 l2 -> distinct l2 = true -> distinct l1 = true.
Proof.
  induction 1 as [|x l1 l2 Hs IH|x l1 l2 Hs IH]; simpl; [auto| |].
  - rewrite !andb_true_iff, !negb_true_iff. intros [Hx Hd]. split; [|auto].
    destruct (in_list x l1) eqn:E; [|reflexivity].
    now rewrite (in_list_subseq _ _ _ Hs E) in Hx.
  - rewrite andb_true_iff. intros [_ Hd]. auto.
Qed.

(** X16.  The "Remove" button of entry [idx], for the numbers the page
    offers (1 to the length of the list), removes exactly that entry: the
    others keep their order, the list is one shorter and stays without
    repeats.  Every number beyond the list is an [IndexError]. *)
Theorem remove_from_comparison_entry (idx : nat)
    (comparison_list : list EntityRecord) :
  (1 <= idx <= List.length comparison_list)%nat ->
  exists rest,
    remove_from_comparison idx comparison_list = Some rest
    /\ rest = firstn (idx - 1) comparison_list ++ skipn idx comparison_list
    /\ S (List.length rest) = List.length comparison_list
    /\ subseq rest comparison_list
    /\ (distinct comparison_list = true -> distinct rest = true)
    /\ (forall beyond,
           (List.length comparison_list < beyond)%nat ->
           remove_from_comparison beyond comparison_list = None).
Proof.
  intros [Hlo Hhi]. unfold remove_from_comparison.
  exists (firstn (idx - 1) comparison_list ++ skipn idx comparison_list).
  assert (Hs : subseq (firstn (idx - 1) comparison_list
                       ++ skipn idx comparison_list) comparison_list).
  { replace idx with (S (idx - 1)) at 2 by lia. apply subseq_pop. }
  conjuncts.
  - rewrite pop_spec by lia. now replace (S (idx - 1)) with idx by lia.
  - reflexivity.
  - rewrite length_app, length_firstn, length_skipn. lia.
  - exact Hs.
  - now apply distinct_subseq.
  - intros beyond Hb. apply pop_out_of_range. lia.
Qed.

Lemma remove_from_comparison_entry_witness :
  exists rest,
    remove_from_comparison 2 [Acme; Bare; Nameless] = Some rest
    /\ rest = [Acme; Nameless].
Proof.
  destruct (remove_from_comparison_entry 2 [Acme; Bare; Nameless])
    as (rest & H & Hrest & _); [simpl; lia|].
  exists rest. split; [exact H | exact Hrest].
Defined.

(** X17.  The comparison table and the result card read a record alike
    for type, score and id, and for name and description when the record
    carries them; a missing name is "Unknown" in the table and
    "Unknown Entity" on the card, a missing description "N/A" in the table
    and empty on the card. *)
Theorem comparison_row_and_card (entity : EntityRecord) :
  cmp_Type (comparison_row entity) = effective_type entity
  /\ cmp_Match_Score (comparison_row entity) = match_score (card entity)
  /\ cmp_ID (comparison_row entity) = entity_id (card entity)
  /\ (forall name, rec_name entity = Some name ->
        cmp_Name (comparison_row entity) = name
        /\ entity_name (card entity) = name)
  /\ (forall text, rec_description entity = Some text ->
        cmp_Description (comparison_row entity) = text
        /\ description (card entity) = text)
  /\ (rec_name entity = None ->
      cmp_Name (comparison_row entity) = "Unknown"
      /\ entity_name (card entity) = "Unknown Entity")
  /\ (rec_description entity = None ->
      cmp_Description (comparison_row entity) = "N/A"
      /\ description (card entity) = "").
Proof.
  unfold comparison_row, card; cbn.
  conjuncts; try reflexivity.
  - intros name ->. split; reflexivity.
  - intros text ->. split; reflexivity.
  - intros ->. split; reflexivity.
  - intros ->. split; reflexivity.
Qed.

(* ================================================================== *)
(** * The spreadsheet                                                  *)
(* ================================================================== *)

Lemma enumerate_cons {A : Type} (x : A) (xs : list A) (start : nat) :
  enumerate (x :: xs) start = (start, x) :: enumerate xs (S start).
Proof. reflexivity. Qed.

Lemma ws_value_write (ws : worksheet) (r c : nat) (v : cell)
    (row column : nat) :
  ws_value (ws_write ws r c v) row column
  = if (r =? row)%nat && (c =? column)%nat then Some v
    else ws_value ws row column.
Proof. reflexivity. Qed.

(** Writing the cells of one row leaves every other cell alone... *)
Lemma row_writes_miss {A : Type} (g : A -> cell) (row_num : nat)
    (l : list A) (start : nat) (ws : worksheet) (row column : nat) :
  row <> row_num \/ (column < start)%nat
  \/ (start + List.length l <= column)%nat ->
  ws_value
    (fold_left (fun ws cv => ws_write ws row_num (fst cv) (g (snd cv)))
               (enumerate l start) ws)
    row column
  = ws_value ws row column.
Proof.
  revert start ws. induction l as [|x l IH]; intros start ws H;
    [reflexivity|].
  rewrite enumerate_cons. cbn [fold_left fst snd].
  rewrite IH by (simpl in H; lia). rewrite ws_value_write.
  destruct (Nat.eqb_spec row_num row); [|reflexivity].
  destruct (Nat.eqb_spec start column); [|reflexivity].
  simpl in H. lia.
Qed.

(** ... and puts the [k]-th value [k] columns after the first. *)
Lemma row_writes_hit {A : Type} (g : A -> cell) (row_num : nat)
    (l : list A) (start : nat) (ws : worksheet) (k : nat) (x : A) :
  nth_error l k = Some x ->
  ws_value
    (fold_left (fun ws cv => ws_write ws row_num (fst cv) (g (snd cv)))
               (enumerate l start) ws)
    row_num (start + k)
  = Some (g x).
Proof.
  revert start ws k. induction l as [|y l IH]; intros start ws k Hk.
  - destruct k; discriminate.
  - rewrite enumerate_cons. cbn [fold_left fst snd].
    destruct k as [|k].
    + injection Hk as ->. rewrite row_writes_miss by lia.
      rewrite ws_value_write, Nat.add_0_r, !Nat.eqb_refl. reflexivity.
    + replace (start + S k)%nat with (S start + k)%nat by lia.
      now apply IH.
Qed.

Lemma data_writes_miss (rows : list (list cell)) (start : nat)
    (ws : worksheet) (row column : nat) :
  (row < start)%nat \/ (start + List.length rows <= row)%nat ->
  ws_value
    (fold_left (fun ws rr => write_row (fst rr) (snd rr) ws)
               (enumerate rows start) ws)
    row column
  = ws_value ws row column.
Proof.
  revert start ws. induction rows as [|r rows IH]; intros start ws H;
    [reflexivity|].
  rewrite enumerate_cons. cbn [fold_left fst snd].
  rewrite IH by (simpl in H; lia).
  unfold write_row.
  apply (row_writes_miss (fun v => v)). simpl in H. lia.
Qed.

Lemma data_writes_hit (rows : list (list cell)) (start : nat)
    (ws : worksheet) (i j : nat) (row_data : list cell) (v : cell) :
  nth_error rows i = Some row_data ->
  nth_error row_data j = Some v ->
  ws_value
    (fold_left (fun ws rr => write_row (fst rr) (snd rr) ws)
               (enumerate rows start) ws)
    (start + i) (S j)
  = Some v.
Proof.
  revert start ws i. induction rows as [|r rows IH]; intros start ws i Hi Hj.
  - destruct i; discriminate.
  - rewrite enumerate_cons. cbn [fold_left fst snd].
    destruct i as [|i].
    + injection Hi as ->. rewrite data_writes_miss by lia.
      rewrite Nat.add_0_r. unfold write_row.
      apply (row_writes_hit (fun v => v) start row_data 1 ws j v Hj).
    + replace (start + S i)%nat with (S start + i)%nat by lia.
      now apply IH.
Qed.

(** X18.  Layout of the sheet.  The four metadata lines are in A1 to A4,
    row 5 is blank, the column labels are in row 6 and record [i] (counted
    from 0) is in row 7 + [i], each value in the column of its label;
    nothing written later overwrites the metadata or the labels. *)
Theorem excel_sheet_layout (env : Env) (df_export : DataFrame)
    (query : string) (sources : list string) :
  ws_value (excel_sheet env df_export query sources) 1 1
  = Some (Str "ICIJ Offshore Leaks Search Results")
  /\ ws_value (excel_sheet env df_export query sources) 2 1
     = Some (Str ("Query: " ++ query))
  /\ ws_value (excel_sheet env df_export query sources) 3 1
     = Some (Str ("Sources: "
                  ++ (if truthy sources then PyStr.join ", " sources
                      else "All")))
  /\ ws_value (excel_sheet env df_export query sources) 4 1
     = Some (Str ("Date: " ++ now env))
  /\ (forall column,
         ws_value (excel_sheet env df_export query sources) 5 column = None)
  /\ (forall j label,
         nth_error (columns df_export) j = Some label ->
         ws_value (excel_sheet env df_export query sources) 6 (S j)
         = Some (Str label))
  /\ (forall i j row_data v,
         nth_error (values df_export) i = Some row_data ->
         nth_error row_data j = Some v ->
         ws_value (excel_sheet env df_export query sources) (7 + i) (S j)
         = Some v).
Proof.
  unfold excel_sheet. cbn [Nat.add].
  conjuncts.
  1-5: try intros column;
    rewrite data_writes_miss by lia;
    rewrite (row_writes_miss Str) by lia;
    reflexivity.
  - intros j label Hj. rewrite data_writes_miss by lia.
    apply (row_writes_hit Str 6 (columns df_export) 1 _ j label Hj).
  - intros i j row_data v Hi Hj.
    apply (data_writes_hit (values df_export) 7 _ i j row_data v Hi Hj).
Qed.

Lemma excel_sheet_layout_witness :
  ws_value (excel_sheet sample_env
              (export_table sample_env "acme" true [Acme; Nameless])
              "acme" []) 8 4
  = Some (Str "Entity").
Proof.
  destruct (excel_sheet_layout sample_env
              (export_table sample_env "acme" true [Acme; Nameless])
              "acme" []) as (_ & _ & _ & _ & _ & _ & H).
  apply (H 1%nat 3%nat
           (export_row sample_env "acme" true Nameless) (Str "Entity"));
    reflexivity.
Defined.

Lemma longest_fold (f : option cell -> nat) (column : list (option cell))
    (start : nat) :
  (start
   <= fold_left (fun m c => if (m <? f c)%nat then f c else m) column start)%nat
  /\ (forall c, In c column ->
        (f c <= fold_left (fun m c => if (m <? f c)%nat then f c else m)
                          column start)%nat)
  /\ (fold_left (fun m c => if (m <? f c)%nat then f c else m) column start
      = start
      \/ exists c, In c column
           /\ fold_left (fun m c => if (m <? f c)%nat then f c else m)
                        column start = f c).
Proof.
  revert start. induction column as [|c column IH]; intros start; simpl.
  - split; [lia|]. split; [intros c []|now left].
  - destruct (IH (if (start <? f c)%nat then f c else start))
      as (Hge & Hall & Hex).
    destruct (Nat.ltb_spec start (f c)) as [Hlt|Hle].
    + split; [lia|]. split.
      * intros c' [<-|Hin]; [exact Hge | now apply Hall].
      * right. destruct Hex as [->|(c' & Hin & ->)];
          [exists c | exists c']; auto.
    + split; [exact Hge|]. split.
      * intros c' [<-|Hin]; [lia | now apply Hall].
      * destruct Hex as [->|(c' & Hin & ->)]; [now left|].
        right. exists c'. auto.
Qed.

(** X19.  Column widths of the sheet.  A width is between 2 and 50; it
    leaves two characters of room beyond the text of every cell of the
    column unless that would exceed the cap of 50; and it is no wider than
    the longest cell needs. *)
Theorem adjusted_width_fits_cells (env : Env) (column : list (option cell)) :
  (2 <= adjusted_width env column <= 50)%nat
  /\ (forall cell, In cell column ->
        (Nat.min (String.length (cell_text env cell) + 2) 50
         <= adjusted_width env column)%nat)
  /\ (adjusted_width env column = 2%nat
      \/ exists cell, In cell column
           /\ adjusted_width env column
              = Nat.min (String.length (cell_text env cell) + 2) 50).
Proof.
  unfold adjusted_width.
  destruct (longest_fold (fun c => String.length (cell_text env c)) column 0)
    as (Hge & Hall & Hex).
  cbn beta in Hge, Hall, Hex.
  conjuncts.
  - lia.
  - lia.
  - intros cell Hin. specialize (Hall cell Hin). lia.
  - destruct Hex as [->|(cell & Hin & ->)]; [now left|].
    right. exists cell. auto.
Qed.

(* ================================================================== *)
(** * Download names                                                   *)
(* ================================================================== *)

(** X20.  The name offered for a download holds no space, whatever the
    query, provided the date and the extension hold none; the query part
    keeps its length, spaces having become underscores. *)
Theorem export_file_name_without_spaces (query today ext : string) :
  PyStr.has_char " " today = false ->
  PyStr.has_char " " ext = false ->
  PyStr.has_char " " (export_file_name query today ext) = false
  /\ String.length (export_file_name query today ext)
     = (14 + String.length query + String.length today
        + String.length ext)%nat.
Proof.
  intros Ht He. unfold export_file_name. split.
  - rewrite !PyStrFacts.has_char_app, Ht, He.
    rewrite PyStrFacts.replace_no_old by discriminate. reflexivity.
  - rewrite !PyStrFacts.length_append, PyStrFacts.replace_length. simpl. lia.
Qed.

Lemma export_file_name_without_spaces_witness :
  PyStr.has_char " " (export_file_name "acme holdings ltd" "20250101" "csv")
  = false.
Proof.
  apply (export_file_name_without_spaces "acme holdings ltd" "20250101" "csv");
    reflexivity.
Defined.
